(** * convert_all.py: binary PLY reader and splat encoder

    A shallow embedding of [parse_ply], [convert_to_splat] and [main]
    from [convert_all.py], and the properties of these functions.

    Conventions of the embedding.
    - Python [bytes] and the ASCII fragment of [str] are lists of 8-bit
      characters ([list ascii]).
    - A call either returns, raises, or (the header loop) fails to finish
      within the given number of iterations: type [outcome].
    - Python floats and numpy [float32] values are [spec_float]s of the
      Standard Library (binary64: [prec = 53], [emax = 1024]; binary32:
      [prec = 24], [emax = 128]; binary16: [prec = 11], [emax = 16]).
      [spec_float] has a single NaN: payload and sign of NaNs are not
      tracked.
    - [main] runs on a platform: what [os] and [shutil] do is given by
      its operations, of which nothing is assumed. *)

From Stdlib Require Import ZArith List Bool Ascii String Lia Permutation.
From Stdlib Require Import Floats.SpecFloat.
Import ListNotations.

Local Open Scope Z_scope.

(** ** Outcomes of Python calls *)

Inductive exn : Type :=
| IndexError      (* sequence or array index out of range *)
| ValueError      (* int() of a bad literal, empty reduction, bad size *)
| OverflowError   (* float too large to pack, int() of an infinity *)
| StructError     (* struct.error: argument out of range, bad length *)
| OSError.        (* open() failed; IOError is the same class *)

Inductive outcome (A : Type) : Type :=
| Returns (a : A)
| Raises (e : exn)
| Unmodelled      (* header holds a non-ASCII byte: outside the fragment *)
| OutOfFuel.      (* the loop did not finish within the given fuel *)

Arguments Returns {A} a.
Arguments Raises {A} e.
Arguments Unmodelled {A}.
Arguments OutOfFuel {A}.

Definition bind {A B : Type} (c : outcome A) (k : A -> outcome B) : outcome B :=
  match c with
  | Returns a => k a
  | Raises e => Raises e
  | Unmodelled => Unmodelled
  | OutOfFuel => OutOfFuel
  end.

Notation "x <- c ;; k" := (bind c (fun x => k))
  (at level 61, c at next level, right associativity).
Notation "' pat <- c ;; k" := (bind c (fun x => match x with pat => k end))
  (at level 61, pat pattern, c at next level, right associativity).

(** ** Bytes and text *)

Definition bytes := list ascii.
Definition text := list ascii.

Definition lit (s : string) : list ascii := list_ascii_of_string s.
Arguments lit s%_string.

Definition byte_val (c : ascii) : Z := Z.of_N (N_of_ascii c).
Definition byte_of (z : Z) : ascii := ascii_of_N (Z.to_N (z mod 256)).

Definition is_newline (c : ascii) : bool := Ascii.eqb c "010"%char.

(** [str.isspace] on the ASCII range: TAB, LF, VT, FF, CR, FS, GS, RS, US
    and the space. *)
Definition is_space (c : ascii) : bool :=
  let n := byte_val c in
  ((9 <=? n) && (n <=? 13)) || ((28 <=? n) && (n <=? 32)).

Definition is_ascii7 (c : ascii) : bool := byte_val c <? 128.

(** [s.startswith(p)] *)
Fixpoint startswith (p s : list ascii) : bool :=
  match p, s with
  | [], _ => true
  | _ :: _, [] => false
  | a :: p', b :: s' => Ascii.eqb a b && startswith p' s'
  end.

(** [p in s] on byte strings *)
Fixpoint contains (p s : list ascii) : bool :=
  startswith p s ||
  match s with
  | [] => false
  | _ :: s' => contains p s'
  end.

(** [f.readline()]: the bytes up to and including the first newline, or
    everything that is left; the second component is the rest of the
    stream.  At end of file the line is empty. *)
Fixpoint readline (f : bytes) : bytes * bytes :=
  match f with
  | [] => ([], [])
  | c :: f' =>
      if is_newline c then ([c], f')
      else let (l, r) := readline f' in (c :: l, r)
  end.

(** [s.split('\n')] *)
Fixpoint split_nl (s : text) : list text :=
  match s with
  | [] => [[]]
  | c :: s' =>
      if is_newline c then [] :: split_nl s'
      else match split_nl s' with
           | l :: ls => (c :: l) :: ls
           | [] => [[c]]
           end
  end.

(** [s.split()]: maximal runs of non-space characters; [cur] is the run
    being read, reversed. *)
Fixpoint split_ws_from (cur : text) (s : text) : list text :=
  match s with
  | [] => match cur with [] => [] | _ => [rev cur] end
  | c :: s' =>
      if is_space c then
        match cur with
        | [] => split_ws_from [] s'
        | _ => rev cur :: split_ws_from [] s'
        end
      else split_ws_from (c :: cur) s'
  end.

Definition split_ws (s : text) : list text := split_ws_from [] s.

(** [int(tok)] on an ASCII token without spaces: an optional sign, then
    decimal digits, single underscores allowed between digits.  (The
    interpreter's cap on the number of digits is not modelled.) *)
Definition digit_val (c : ascii) : option Z :=
  let n := byte_val c in
  if (48 <=? n) && (n <=? 57) then Some (n - 48) else None.

Fixpoint int_digits (acc : Z) (after_digit : bool) (s : text) : option Z :=
  match s with
  | [] => if after_digit then Some acc else None
  | c :: s' =>
      match digit_val c with
      | Some d => int_digits (10 * acc + d) true s'
      | None =>
          if Ascii.eqb c "_"%char && after_digit
          then int_digits acc false s'
          else None
      end
  end.

Definition py_int_of_str (tok : text) : outcome Z :=
  let parsed :=
    match tok with
    | c :: s' =>
        if Ascii.eqb c "-"%char then option_map Z.opp (int_digits 0 false s')
        else if Ascii.eqb c "+"%char then int_digits 0 false s'
        else int_digits 0 false tok
    | [] => None
    end in
  match parsed with
  | Some n => Returns n
  | None => Raises ValueError
  end.

(** ** The header of a PLY file *)

Definition END_HEADER : bytes := lit "end_header".

(** Lines 10-15: [while True: line = f.readline(); header += line;
    if b'end_header' in line: break].  Returns the header and the
    stream positioned after it. *)
Fixpoint read_header (fuel : nat) (f header : bytes) : outcome (bytes * bytes) :=
  match fuel with
  | O => OutOfFuel
  | S fuel' =>
      let (line, f') := readline f in
      let header' := (header ++ line)%list in
      if contains END_HEADER line then Returns (header', f')
      else read_header fuel' f' header'
  end.

(** Line 17: [header.decode('utf-8')] on a 7-bit header is the identity. *)
Definition decode_utf8 (header : bytes) : outcome text :=
  if forallb is_ascii7 header then Returns header else Unmodelled.

(** Lines 18-22: the count of the first line that starts with
    [element vertex]; 0 when there is none. *)
Fixpoint find_vertex_count (lines : list text) : outcome Z :=
  match lines with
  | [] => Returns 0
  | line :: rest =>
      if startswith (lit "element vertex") line
      then py_int_of_str (last (split_ws line) [])
      else find_vertex_count rest
  end.

(** Lines 31-38: one struct code per recognised property line. *)
Inductive kind : Type :=
| Kf   (* 'f': 32-bit float *)
| KB   (* 'B': unsigned byte *)
| Kd.  (* 'd': 64-bit float *)

Definition classify (line : text) : option kind :=
  if startswith (lit "property float") line then Some Kf
  else if startswith (lit "property uchar") line
          || startswith (lit "property uint8") line then Some KB
  else if startswith (lit "property double") line then Some Kd
  else None.

Fixpoint scan_props (lines : list text) : list kind :=
  match lines with
  | [] => []
  | line :: rest =>
      match classify line with
      | Some k => k :: scan_props rest
      | None => scan_props rest
      end
  end.

(** Line 42: [struct.calcsize('<' + ...)], no padding. *)
Definition width (k : kind) : nat :=
  match k with Kf => 4%nat | KB => 1%nat | Kd => 8%nat end.

Fixpoint calcsize (props : list kind) : nat :=
  match props with
  | [] => 0%nat
  | k :: ps => (width k + calcsize ps)%nat
  end.

(** ** Numbers in the file: little-endian integers and IEEE 754 floats *)

Definition le_int (bs : bytes) : Z :=
  fold_right (fun b acc => byte_val b + 256 * acc) 0 bs.

Fixpoint le_bytes (n : nat) (z : Z) : bytes :=
  match n with
  | O => []
  | S n' => byte_of z :: le_bytes n' (Z.shiftr z 8)
  end.

(** The float with [mbits] stored mantissa bits and [ebits] exponent bits
    whose bit pattern is [bits]. *)
Definition decode_ieee (mbits ebits : Z) (bits : Z) : spec_float :=
  let mant := Z.land bits (2 ^ mbits - 1) in
  let ex := Z.land (Z.shiftr bits mbits) (2 ^ ebits - 1) in
  let s := Z.testbit bits (mbits + ebits) in
  let bias := 2 ^ (ebits - 1) - 1 in
  if ex =? 0 then
    match mant with
    | Zpos m => S754_finite s m (1 - bias - mbits)
    | _ => S754_zero s
    end
  else if ex =? 2 ^ ebits - 1 then
    if mant =? 0 then S754_infinity s else S754_nan
  else
    match mant + 2 ^ mbits with
    | Zpos m => S754_finite s m (ex - bias - mbits)
    | _ => S754_nan
    end.

(** The bit pattern of a float that is already in the format. *)
Definition encode_ieee (mbits ebits : Z) (x : spec_float) : Z :=
  let bias := 2 ^ (ebits - 1) - 1 in
  let sign (s : bool) := if s then 2 ^ (mbits + ebits) else 0 in
  match x with
  | S754_zero s => sign s
  | S754_infinity s => sign s + Z.shiftl (2 ^ ebits - 1) mbits
  | S754_nan => Z.shiftl (2 ^ ebits - 1) mbits + 2 ^ (mbits - 1)
  | S754_finite s m e =>
      if Zpos m <? 2 ^ mbits then sign s + Zpos m
      else sign s + Z.shiftl (e + bias + mbits) mbits + (Zpos m - 2 ^ mbits)
  end.

(** Rounding to nearest even into the format [(prec, emax)]; a finite
    value beyond the range becomes an infinity. *)
Definition round_to (prec emax : Z) (x : spec_float) : spec_float :=
  match x with
  | S754_finite s m e => binary_round prec emax s m e
  | _ => x
  end.

Definition f32_of_int (n : Z) : spec_float := binary_normalize 24 128 n 0 false.
Definition f64_of_int (n : Z) : spec_float := binary_normalize 53 1024 n 0 false.

(** ** Decoding the vertex records *)

(** What [struct.unpack] yields: a Python [float] for 'f' and 'd', a
    Python [int] for 'B'. *)
Inductive pyval : Type :=
| VFloat (x : spec_float)
| VInt (n : Z).

Definition unpack_field (k : kind) (data : bytes) : pyval :=
  match k with
  | Kf => VFloat (decode_ieee 23 8 (le_int data))
  | KB => VInt (le_int data)
  | Kd => VFloat (decode_ieee 52 11 (le_int data))
  end.

Fixpoint unpack_fields (props : list kind) (data : bytes) : list pyval :=
  match props with
  | [] => []
  | k :: ps =>
      unpack_field k (firstn (width k) data)
        :: unpack_fields ps (skipn (width k) data)
  end.

(** Line 49: [struct.unpack(struct_format, data)]; the buffer must have
    exactly the size of the format. *)
Definition unpack (props : list kind) (data : bytes) : outcome (list pyval) :=
  if Nat.eqb (List.length data) (calcsize props)
  then Returns (unpack_fields props data)
  else Raises StructError.

(** [values[i]] on a tuple *)
Definition tuple_get (values : list pyval) (i : nat) : outcome pyval :=
  match nth_error values i with
  | Some v => Returns v
  | None => Raises IndexError
  end.

(** Line 55: [isinstance(v, int) and 0 <= v <= 255] *)
Definition is_uchar (v : pyval) : bool :=
  match v with
  | VInt n => (0 <=? n) && (n <=? 255)
  | VFloat _ => false
  end.

(** The tuple [(x, y, z, r, g, b)] of line 61. *)
Record pytuple6 : Type := Tuple6 {
  t_x : pyval; t_y : pyval; t_z : pyval;
  t_r : pyval; t_g : pyval; t_b : pyval
}.

(** Lines 51-61, one record. *)
Definition decode_vertex (values : list pyval) : outcome pytuple6 :=
  x <- tuple_get values 0 ;;
  y <- tuple_get values 1 ;;
  z <- tuple_get values 2 ;;
  let uchars := filter is_uchar values in
  match uchars with
  | r :: g :: b :: _ => Returns (Tuple6 x y z r g b)
  | _ => Returns (Tuple6 x y z (VInt 128) (VInt 128) (VInt 128))
  end.

(** Lines 44-61: [for i in range(vertex_count)], reading [struct_size]
    bytes per round and leaving the loop on a short read. *)
Fixpoint read_vertices (n : nat) (props : list kind) (f : bytes)
  : outcome (list pytuple6) :=
  match n with
  | O => Returns []
  | S n' =>
      let struct_size := calcsize props in
      let data := firstn struct_size f in
      if Nat.ltb (List.length data) struct_size then Returns []
      else
        values <- unpack props data ;;
        v <- decode_vertex values ;;
        rest <- read_vertices n' props (skipn struct_size f) ;;
        Returns (v :: rest)
  end.

(** ** The vertex table *)

(** A row of the [float32] table. *)
Record vertex : Type := Vertex {
  v_x : spec_float; v_y : spec_float; v_z : spec_float;
  v_r : spec_float; v_g : spec_float; v_b : spec_float
}.

(** The arrays the two functions exchange: [np.array([], dtype=float32)]
    has shape (0,), every other table has shape (n, 6); indexing rows of
    a table can give shape (0, 6). *)
Inductive ndarray : Type :=
| Empty1D
| Table (rows : list vertex).

(** The cast of a Python number to [float32]. *)
Definition np_float32 (v : pyval) : spec_float :=
  match v with
  | VFloat x => round_to 24 128 x
  | VInt n => f32_of_int n
  end.

Definition vertex_of_tuple (t : pytuple6) : vertex :=
  Vertex (np_float32 (t_x t)) (np_float32 (t_y t)) (np_float32 (t_z t))
         (np_float32 (t_r t)) (np_float32 (t_g t)) (np_float32 (t_b t)).

(** Line 63: [np.array(vertices, dtype=np.float32)] *)
Definition np_array (vertices : list pytuple6) : ndarray :=
  match vertices with
  | [] => Empty1D
  | _ => Table (map vertex_of_tuple vertices)
  end.

(** ** Files *)

(** What [open] finds: the content of a path that can be read, and
    whether a path can be opened for writing. *)
Record filesystem : Type := FileSystem {
  fs_read : string -> option bytes;
  fs_writable : string -> bool
}.

(** ** parse_ply *)

(** [has_nx] and [has_color] (lines 27-28) are computed and never used;
    the [print] of line 24 has no effect on the result. *)
Definition parse_ply (fuel : nat) (fs : filesystem) (filepath : string)
  : outcome ndarray :=
  match fs_read fs filepath with
  | None => Raises OSError
  | Some f =>
      '(header, body) <- read_header fuel f [] ;;
      header_str <- decode_utf8 header ;;
      let lines := split_nl header_str in
      vertex_count <- find_vertex_count lines ;;
      let props := scan_props lines in
      vertices <- read_vertices (Z.to_nat vertex_count) props body ;;
      Returns (np_array vertices)
  end.

(** ** Python and numpy numbers used by the encoder *)

(** What a Python function hands back. *)
Inductive pyobj : Type :=
| PyNone
| PyInt (n : Z).

(** [int(x)] on a float: truncation toward zero. *)
Definition py_int_of_float (x : spec_float) : outcome Z :=
  match x with
  | S754_nan => Raises ValueError
  | S754_infinity _ => Raises OverflowError
  | S754_zero _ => Returns 0
  | S754_finite s m e =>
      let mag := if 0 <=? e then Zpos m * 2 ^ e else Zpos m / 2 ^ (- e) in
      Returns (cond_Zopp s mag)
  end.

(** [float(n)] as done by [n * x] for an [int] n and a [float] x. *)
Definition py_float_of_int (n : Z) : outcome spec_float :=
  match f64_of_int n with
  | S754_infinity _ => Raises OverflowError
  | x => Returns x
  end.

Definition py_float_mul : spec_float -> spec_float -> spec_float := SFmul 53 1024.

(** [float32] kernels of numpy, read as IEEE 754 binary32 operations.
    [np.mean] of a [float32] array accumulates in [float32]; the order
    in which it does so and the type in which it divides by the count
    are internals of numpy, and no result below depends on them (the one
    evaluation that goes through the mean sums four equal numbers). *)
Definition f32_add : spec_float -> spec_float -> spec_float := SFadd 24 128.
Definition f32_sub : spec_float -> spec_float -> spec_float := SFsub 24 128.
Definition f32_mul : spec_float -> spec_float -> spec_float := SFmul 24 128.
Definition f32_div : spec_float -> spec_float -> spec_float := SFdiv 24 128.

(** [np.maximum]: a NaN on either side wins. *)
Definition f32_maximum (a b : spec_float) : spec_float :=
  match SFcompare a b with
  | Some Lt => b
  | Some _ => a
  | None => S754_nan
  end.

Definition np_mean (col : list spec_float) : spec_float :=
  f32_div (fold_left f32_add col (S754_zero false))
          (f32_of_int (Z.of_nat (List.length col))).

(** [np.max] of a flat array; an empty one has no maximum. *)
Definition np_max (xs : list spec_float) : outcome spec_float :=
  match xs with
  | [] => Raises ValueError
  | x :: rest => Returns (fold_left f32_maximum rest x)
  end.

(** ** Packing *)

(** [struct.pack('<e', x)]: round to nearest even into binary16; a finite
    value that rounds beyond the range is an error. *)
Definition pack_e (x : spec_float) : outcome bytes :=
  let h := round_to 11 16 x in
  match x, h with
  | S754_finite _ _ _, S754_infinity _ => Raises OverflowError
  | _, _ => Returns (le_bytes 2 (encode_ieee 10 5 h))
  end.

(** Line 65 *)
Definition float32_to_float16_bytes (val : spec_float) : outcome bytes :=
  pack_e val.

(** [struct.pack('<I', n)] *)
Definition pack_I (n : Z) : outcome bytes :=
  if (0 <=? n) && (n <? 2 ^ 32) then Returns (le_bytes 4 n)
  else Raises StructError.

Definition is_u8 (n : Z) : bool := (0 <=? n) && (n <=? 255).

(** [struct.pack('BBBB', r, g, b, a)] *)
Definition pack_BBBB (r g b a : Z) : outcome bytes :=
  if is_u8 r && is_u8 g && is_u8 b && is_u8 a
  then Returns [byte_of r; byte_of g; byte_of b; byte_of a]
  else Raises StructError.

(** ** Writing to the open file *)

(** A computation on the open output file: from the bytes written so far
    to the bytes written when it returns or raises. *)
Definition io (A : Type) : Type := bytes -> bytes * outcome A.

Definition io_ret {A : Type} (a : A) : io A := fun out => (out, Returns a).

Definition io_bind {A B : Type} (c : io A) (k : A -> io B) : io B :=
  fun out =>
    match c out with
    | (out', Returns a) => k a out'
    | (out', Raises e) => (out', Raises e)
    | (out', Unmodelled) => (out', Unmodelled)
    | (out', OutOfFuel) => (out', OutOfFuel)
    end.

Definition io_lift {A : Type} (c : outcome A) : io A := fun out => (out, c).

(** [f.write(bs)] *)
Definition f_write (bs : bytes) : io unit :=
  fun out => ((out ++ bs)%list, Returns tt).

Notation "x <~ c ;; k" := (io_bind c (fun x => k))
  (at level 61, c at next level, right associativity).

Definition position : Type := spec_float * spec_float * spec_float.

(** Lines 92-101: the body of the loop over the points. *)
Definition write_point (p : position) (v : vertex) : io unit :=
  let '(x, y, z) := p in
  r <~ io_lift (py_int_of_float (v_r v)) ;;
  g <~ io_lift (py_int_of_float (v_g v)) ;;
  b <~ io_lift (py_int_of_float (v_b v)) ;;
  bx <~ io_lift (float32_to_float16_bytes x) ;;
  _ <~ f_write bx ;;
  by_ <~ io_lift (float32_to_float16_bytes y) ;;
  _ <~ f_write by_ ;;
  bz <~ io_lift (float32_to_float16_bytes z) ;;
  _ <~ f_write bz ;;
  c <~ io_lift (pack_BBBB r g b 255) ;;
  f_write c.

Fixpoint write_points (pvs : list (position * vertex)) : io unit :=
  match pvs with
  | [] => io_ret tt
  | (p, v) :: rest => _ <~ write_point p v ;; write_points rest
  end.

(** Lines 88-101: what is done with the file once it is open. *)
Definition write_splat (positions : list position) (rows : list vertex) : io unit :=
  h <~ io_lift (pack_I (Z.of_nat (List.length rows))) ;;
  _ <~ f_write h ;;
  write_points (combine positions rows).

(** ** Normalising the positions *)

Definition xyz (v : vertex) : position := (v_x v, v_y v, v_z v).

Definition flatten (ps : list position) : list spec_float :=
  flat_map (fun p : position => let '(x, y, z) := p in [x; y; z]) ps.

Definition pos_map (f : spec_float -> spec_float) (p : position) : position :=
  let '(x, y, z) := p in (f x, f y, f z).

Definition px (p : position) : spec_float := fst (fst p).
Definition py (p : position) : spec_float := snd (fst p).
Definition pz (p : position) : spec_float := snd p.

(** Lines 79-81: the positions minus their mean, column by column. *)
Definition centered (rows : list vertex) : list position :=
  let positions := map xyz rows in
  let center : position :=
    (np_mean (map px positions), np_mean (map py positions),
     np_mean (map pz positions)) in
  map (fun p => (f32_sub (px p) (px center), f32_sub (py p) (py center),
                 f32_sub (pz p) (pz center))) positions.

(** Line 84: [c / max_extent * 10] *)
Definition scale (max_extent c : spec_float) : spec_float :=
  f32_mul (f32_div c max_extent) (f32_of_int 10).

(** Lines 79-84.  [vertices[:, :3]] needs two axes. *)
Definition normalize (vertices : ndarray) : outcome (list position) :=
  match vertices with
  | Empty1D => Raises IndexError
  | Table rows =>
      let positions := centered rows in
      max_extent <- np_max (map SFabs (flatten positions)) ;;
      if SFltb (S754_zero false) max_extent
      then Returns (map (pos_map (scale max_extent)) positions)
      else Returns positions
  end.

(** ** convert_to_splat *)

Definition rows_of (vertices : ndarray) : list vertex :=
  match vertices with
  | Empty1D => []
  | Table rows => rows
  end.

(** [len(vertices)] *)
Definition len (vertices : ndarray) : nat := List.length (rows_of vertices).

Fixpoint take_rows (rows : list vertex) (indices : list nat)
  : outcome (list vertex) :=
  match indices with
  | [] => Returns []
  | i :: rest =>
      match nth_error rows i with
      | Some v => vs <- take_rows rows rest ;; Returns (v :: vs)
      | None => Raises IndexError
      end
  end.

(** [vertices[indices]] *)
Definition take (vertices : ndarray) (indices : list nat) : outcome ndarray :=
  match vertices with
  | Empty1D =>
      match indices with
      | [] => Returns Empty1D
      | _ => Raises IndexError
      end
  | Table rows => rows' <- take_rows rows indices ;; Returns (Table rows')
  end.

Section Encoder.

(** [random_choice n k]: the index array that
    [np.random.choice(n, k, replace=False)] draws in this call. *)
Variable random_choice : nat -> nat -> list nat.

(** Lines 72-76.  [sample_ratio] is a Python float. *)
Definition subsample (vertices : ndarray) (sample_ratio : spec_float)
  : outcome ndarray :=
  let n := Z.of_nat (len vertices) in
  nf <- py_float_of_int n ;;
  target_points <- py_int_of_float (py_float_mul nf sample_ratio) ;;
  if target_points <? n then
    if target_points <? 0 then Raises ValueError
    else take vertices (random_choice (len vertices) (Z.to_nat target_points))
  else Returns vertices.

(** The function: what the output file holds afterwards ([None]: it was
    never opened) and the outcome of the call.  The [print]s and the
    [os.path.getsize] of lines 103-104 leave both unchanged. *)
Definition convert_to_splat (fs : filesystem) (vertices : ndarray)
    (output_path : string) (sample_ratio : spec_float)
  : option bytes * outcome pyobj :=
  match subsample vertices sample_ratio with
  | Returns vertices' =>
      match normalize vertices' with
      | Returns positions =>
          if fs_writable fs output_path then
            let (out, res) := write_splat positions (rows_of vertices') [] in
            (Some out, _ <- res ;; Returns PyNone)
          else (None, Raises OSError)
      | Raises e => (None, Raises e)
      | Unmodelled => (None, Unmodelled)
      | OutOfFuel => (None, OutOfFuel)
      end
  | Raises e => (None, Raises e)
  | Unmodelled => (None, Unmodelled)
  | OutOfFuel => (None, OutOfFuel)
  end.

(** Lines 129-130 of [main], with the ratio as an argument ([main]
    leaves it at its default, 0.6). *)
Definition parse_then_convert (fuel : nat) (fs : filesystem)
    (ply_path splat_path : string) (sample_ratio : spec_float)
  : option bytes * outcome pyobj :=
  match parse_ply fuel fs ply_path with
  | Returns vertices => convert_to_splat fs vertices splat_path sample_ratio
  | Raises e => (None, Raises e)
  | Unmodelled => (None, Unmodelled)
  | OutOfFuel => (None, OutOfFuel)
  end.

End Encoder.

(** ** Notions used to state the properties *)

(** The layout that [parse_ply] derives from the header (lines 10-42):
    the declared vertex count, the struct codes of the properties and
    the stream after the header. *)
Definition parse_header (fuel : nat) (fs : filesystem) (filepath : string)
  : outcome (Z * list kind * bytes) :=
  match fs_read fs filepath with
  | None => Raises OSError
  | Some f =>
      '(header, body) <- read_header fuel f [] ;;
      header_str <- decode_utf8 header ;;
      let lines := split_nl header_str in
      vertex_count <- find_vertex_count lines ;;
      Returns (vertex_count, scan_props lines, body)
  end.

(** A line as [readline] delivers it before the end of the file: it ends
    with its only newline. *)
Fixpoint is_line (l : bytes) : bool :=
  match l with
  | [] => false
  | c :: l' =>
      match l' with
      | [] => is_newline c
      | _ :: _ => negb (is_newline c) && is_line l'
      end
  end.

Definition plain_line (l : bytes) : bool :=
  is_line l && negb (contains END_HEADER l).

(** No line of the header declares the vertex count. *)
Definition no_vertex_line (lines : list text) : bool :=
  forallb (fun l => negb (startswith (lit "element vertex") l)) lines.

(** The bytes of record [i] of the body. *)
Definition record_at (props : list kind) (body : bytes) (i : nat) : bytes :=
  firstn (calcsize props) (skipn (i * calcsize props) body).

(** The values of the fields declared as bytes, in declaration order, read
    at their offsets in a record. *)
Fixpoint byte_fields (props : list kind) (data : bytes) : list Z :=
  match props with
  | [] => []
  | k :: ps =>
      let rest := byte_fields ps (skipn (width k) data) in
      match k with
      | KB => le_int (firstn 1 data) :: rest
      | _ => rest
      end
  end.

(** The values of the fields declared as floats ([float] or [double]), in
    declaration order. *)
Fixpoint float_fields (props : list kind) (data : bytes) : list spec_float :=
  match props with
  | [] => []
  | k :: ps =>
      let rest := float_fields ps (skipn (width k) data) in
      match k with
      | Kf => decode_ieee 23 8 (le_int (firstn 4 data)) :: rest
      | Kd => decode_ieee 52 11 (le_int (firstn 8 data)) :: rest
      | KB => rest
      end
  end.

Definition is_byte_kind (k : kind) : bool :=
  match k with KB => true | _ => false end.

(** What reading record [i] yields. *)
Definition record_decodes (props : list kind) (body : bytes) (i : nat)
    (t : pytuple6) : Prop :=
  (values <- unpack props (record_at props body i) ;; decode_vertex values)
  = Returns t.

Definition color (v : vertex) : spec_float * spec_float * spec_float :=
  (v_r v, v_g v, v_b v).

Definition gray : spec_float * spec_float * spec_float :=
  (f32_of_int 128, f32_of_int 128, f32_of_int 128).


(** The floor of the real number a float stands for. *)
Definition float_floor (x : spec_float) : option Z :=
  match x with
  | S754_zero _ => Some 0
  | S754_finite s m e =>
      Some (if 0 <=? e then cond_Zopp s (Zpos m) * 2 ^ e
            else cond_Zopp s (Zpos m) / 2 ^ (- e))
  | _ => None
  end.

(** [floor(N x r)], the product being the one of Python floats. *)
Definition floor_times (n : nat) (r : spec_float) : option Z :=
  match py_float_of_int (Z.of_nat n) with
  | Returns nf => float_floor (py_float_mul nf r)
  | _ => None
  end.


(** What [np.random.choice(n, k, replace=False)] promises for [k <= n]:
    [k] pairwise distinct indices below [n]. *)
Definition choice_without_replacement (random_choice : nat -> nat -> list nat)
  : Prop :=
  forall n k : nat, (k <= n)%nat ->
    List.length (random_choice n k) = k /\
    NoDup (random_choice n k) /\
    Forall (fun i => (i < n)%nat) (random_choice n k).

Definition is_finite (x : spec_float) : bool :=
  match x with
  | S754_zero _ | S754_finite _ _ _ => true
  | _ => false
  end.

(** Zero, a positive finite float, plus infinity or the NaN: what a
    product of non-negative floats can be. *)
Definition not_negative (x : spec_float) : Prop :=
  match x with
  | S754_zero _ | S754_nan => True
  | S754_infinity s | S754_finite s _ _ => s = false
  end.

(** The ten bytes of a point: x, y, z as binary16, little-endian, then
    the truncated colour components, then 255. *)
Definition point_bytes (p : position) (v : vertex) (rb : bytes) : Prop :=
  exists bx by_ bz r g b,
    pack_e (px p) = Returns bx /\ pack_e (py p) = Returns by_ /\
    pack_e (pz p) = Returns bz /\
    py_int_of_float (v_r v) = Returns r /\
    py_int_of_float (v_g v) = Returns g /\
    py_int_of_float (v_b v) = Returns b /\
    is_u8 r = true /\ is_u8 g = true /\ is_u8 b = true /\
    rb = (bx ++ by_ ++ bz ++ [byte_of r; byte_of g; byte_of b; byte_of 255])%list.

(** A computation on the file only appends to it, whatever its outcome. *)
Definition appends {A : Type} (c : io A) : Prop :=
  forall out0, exists suffix, fst (c out0) = (out0 ++ suffix)%list.

(** The binary16 value read back from two bytes of the output. *)
Definition unpack_e (bs : bytes) : spec_float := decode_ieee 10 5 (le_int bs).

Definition ten16 : spec_float := round_to 11 16 (S754_finite false 5 1).

(** [-10 <= x <= 10] on binary16 values. *)
Definition within_ten (x : spec_float) : bool :=
  SFleb (SFopp ten16) x && SFleb x ten16.

(** ** Sample inputs *)

Definition bs (l : list Z) : bytes := map byte_of l.

(** [float x, y, z; uchar red, green, blue], four vertices declared. *)
Definition header_xyz_rgb : bytes := lit
"ply
format binary_little_endian 1.0
element vertex 4
property float x
property float y
property float z
property uchar red
property uchar green
property uchar blue
end_header
".

(** A record with position (x, 0, 0), [x] given by its four bytes. *)
Definition rec_x (x : list Z) (r g b : Z) : bytes :=
  bs (x ++ [0; 0; 0; 0; 0; 0; 0; 0] ++ [r; g; b]).

(** Positions (0,0,0), (10,0,0), (0,0,0), (0,0,0). *)
Definition body_four : bytes :=
  (rec_x [0; 0; 0; 0] 1 2 3 ++ rec_x [0; 0; 32; 65] 4 5 6
   ++ rec_x [0; 0; 0; 0] 7 8 9 ++ rec_x [0; 0; 0; 0] 10 11 12)%list.

(** A byte property declared before the position. *)
Definition header_byte_first : bytes := lit
"ply
format binary_little_endian 1.0
element vertex 1
property uchar confidence
property float x
property float y
property float z
end_header
".

(** confidence 200, then (1.0, 2.0, 3.0) *)
Definition body_byte_first : bytes :=
  bs [200; 0; 0; 128; 63; 0; 0; 0; 64; 0; 0; 64; 64].

(** No [element vertex] line. *)
Definition header_no_count : bytes := lit
"ply
format binary_little_endian 1.0
property float x
property float y
property float z
end_header
".

(** One property only, two vertices declared. *)
Definition header_one_prop : bytes := lit
"ply
format binary_little_endian 1.0
element vertex 2
property float x
end_header
".

(** The float 1.0. *)
Definition body_one_float : bytes := bs [0; 0; 128; 63].

(** A well-formed file without vertices. *)
Definition header_zero : bytes := lit
"ply
format binary_little_endian 1.0
element vertex 0
property float x
property float y
property float z
property uchar red
property uchar green
property uchar blue
end_header
".

Definition sample_fs : filesystem :=
  FileSystem
    (fun p =>
       if String.eqb p "scene.ply" then Some (header_xyz_rgb ++ body_four)%list
       else if String.eqb p "short.ply"
            then Some (header_xyz_rgb ++ firstn 37 body_four)%list
       else if String.eqb p "byte_first.ply"
            then Some (header_byte_first ++ body_byte_first)%list
       else if String.eqb p "no_count.ply"
            then Some (header_no_count ++ firstn 15 body_four)%list
       else if String.eqb p "one_prop.ply"
            then Some (header_one_prop ++ body_one_float)%list
       else if String.eqb p "empty.ply" then Some header_zero
       else None)%string
    (fun p => negb (String.eqb p "/proc/scene.splat")).

(** The table of [scene.ply]. *)
Definition sample_rows : list vertex :=
  [ Vertex (S754_zero false) (S754_zero false) (S754_zero false)
           (f32_of_int 1) (f32_of_int 2) (f32_of_int 3);
    Vertex (f32_of_int 10) (S754_zero false) (S754_zero false)
           (f32_of_int 4) (f32_of_int 5) (f32_of_int 6);
    Vertex (S754_zero false) (S754_zero false) (S754_zero false)
           (f32_of_int 7) (f32_of_int 8) (f32_of_int 9);
    Vertex (S754_zero false) (S754_zero false) (S754_zero false)
           (f32_of_int 10) (f32_of_int 11) (f32_of_int 12) ].

(** What [convert_to_splat] writes for [scene.ply] at ratio 1.0. *)
Definition sample_splat : bytes :=
  bs [4; 0; 0; 0;
      171; 194; 0; 0; 0; 0; 1; 2; 3; 255;
      0; 73; 0; 0; 0; 0; 4; 5; 6; 255;
      171; 194; 0; 0; 0; 0; 7; 8; 9; 255;
      171; 194; 0; 0; 0; 0; 10; 11; 12; 255].

(** Four vertices at x = 3.0e38 (bits 7F61B1E6), y = z = 0. *)
Definition body_far : bytes :=
  (rec_x [230; 177; 97; 127] 1 2 3 ++ rec_x [230; 177; 97; 127] 4 5 6
   ++ rec_x [230; 177; 97; 127] 7 8 9 ++ rec_x [230; 177; 97; 127] 10 11 12)%list.

Definition far_fs : filesystem :=
  FileSystem
    (fun p => if String.eqb p "far.ply"
              then Some (header_xyz_rgb ++ body_far)%list else None)
    (fun _ => true).

(** The draw that picks the first [k] indices. *)
Definition first_indices (n k : nat) : list nat := seq 0 k.

(** 1.0 and 0.6 as Python floats. *)
Definition ratio_one : spec_float := S754_finite false 4503599627370496 (-52).
Definition ratio_default : spec_float := decode_ieee 52 11 0x3FE3333333333333.

(** ** main *)

(** What [main] asks of the machine it runs on.  [os], [shutil] and the
    files are not part of the program: each of their calls is an
    operation of the platform on a state [world], and nothing is assumed
    of what it does there (links, directories and permissions are the
    platform's).
    - [makedirs w path]: [os.makedirs(path, exist_ok=True)];
    - [w_exists w path]: [os.path.exists(path)];
    - [w_files w]: the files as [open] finds them in [w];
    - [store w path content]: the world once [path] has been opened for
      writing and has received [content];
    - [shutil_copy w src dst]: [shutil.copy(src, dst)]. *)
Record platform (world : Type) : Type := Platform {
  makedirs : world -> string -> outcome world;
  w_exists : world -> string -> bool;
  w_files : world -> filesystem;
  store : world -> string -> bytes -> world;
  shutil_copy : world -> string -> string -> outcome world
}.

Arguments Platform {world}.
Arguments makedirs {world}.
Arguments w_exists {world}.
Arguments w_files {world}.
Arguments store {world}.
Arguments shutil_copy {world}.

(** [s.split('.')] on text *)
Fixpoint split_dot (s : text) : list text :=
  match s with
  | [] => [[]]
  | c :: s' =>
      if Ascii.eqb c "."%char then [] :: split_dot s'
      else match split_dot s' with
           | l :: ls => (c :: l) :: ls
           | [] => [[c]]
           end
  end.

(** [preview_file.split('.')[-1]] *)
Definition extension (preview_file : string) : string :=
  string_of_list_ascii (last (split_dot (list_ascii_of_string preview_file)) []).

(** What [main] prints about a scene, without the wording. *)
Inductive event : Type :=
| PlyConverted
| PlyError (e : exn)
| PlyNotFound
| PreviewCopied.

(** An entry of [files]: name, PLY file, preview file, scene name. *)
Definition scene : Type := (string * string * string * string)%type.

Definition ply_path_of (source_dir : string) (sc : scene) : string :=
  let '(_, ply_file, _, _) := sc in (source_dir ++ "/" ++ ply_file)%string.

Definition splat_path_of (output_dir : string) (sc : scene) : string :=
  let '(_, _, _, scene_name) := sc in
  (output_dir ++ "/" ++ scene_name ++ ".splat")%string.

Definition preview_src_of (source_dir : string) (sc : scene) : string :=
  let '(_, _, preview_file, _) := sc in
  (source_dir ++ "/" ++ preview_file)%string.

Definition preview_dst_of (output_dir : string) (sc : scene) : string :=
  let '(_, _, preview_file, scene_name) := sc in
  (output_dir ++ "/samples/" ++ scene_name ++ "." ++ extension preview_file)%string.

(** Lines 127-134: the conversion of one scene, every exception caught.
    [convert_to_splat] is called with its default ratio; what it leaves
    in the output, whole or cut short, is in the world afterwards. *)
Definition convert_scene {world : Type} (os : platform world)
    (random_choice : nat -> nat -> list nat) (fuel : nat)
    (w : world) (ply_path splat_path : string) : outcome (world * list event) :=
  if w_exists os w ply_path then
    match parse_ply fuel (w_files os w) ply_path with
    | Returns vertices =>
        let (sink, res) :=
          convert_to_splat random_choice (w_files os w) vertices splat_path
            ratio_default in
        let w' := match sink with
                  | Some out => store os w splat_path out
                  | None => w
                  end in
        match res with
        | Returns _ => Returns (w', [PlyConverted])
        | Raises e => Returns (w', [PlyError e])
        | Unmodelled => Unmodelled
        | OutOfFuel => OutOfFuel
        end
    | Raises e => Returns (w, [PlyError e])
    | Unmodelled => Unmodelled
    | OutOfFuel => OutOfFuel
    end
  else Returns (w, [PlyNotFound]).

(** Lines 121-144: one round of the loop over [files]. *)
Definition process_scene {world : Type} (os : platform world)
    (random_choice : nat -> nat -> list nat) (fuel : nat)
    (source_dir output_dir : string) (w : world) (sc : scene)
  : outcome (world * list event) :=
  '(w1, ev1) <- convert_scene os random_choice fuel w
                  (ply_path_of source_dir sc) (splat_path_of output_dir sc) ;;
  if w_exists os w1 (preview_src_of source_dir sc) then
    w2 <- shutil_copy os w1 (preview_src_of source_dir sc)
            (preview_dst_of output_dir sc) ;;
    Returns (w2, (ev1 ++ [PreviewCopied])%list)
  else Returns (w1, ev1).

(** The loop of lines 121-144; [draws i] is what [np.random.choice]
    draws in round [i]. *)
Fixpoint run_scenes {world : Type} (os : platform world)
    (draws : nat -> nat -> nat -> list nat) (i : nat)
    (fuel : nat) (source_dir output_dir : string) (w : world)
    (scenes : list scene) : outcome (world * list event) :=
  match scenes with
  | [] => Returns (w, [])
  | sc :: rest =>
      '(w1, ev1) <- process_scene os (draws i) fuel source_dir output_dir w sc ;;
      '(w2, ev2) <- run_scenes os draws (S i) fuel source_dir output_dir w1 rest ;;
      Returns (w2, (ev1 ++ ev2)%list)
  end.

Definition SOURCE_DIR : string := "/Users/bronya/Desktop/webpage/source_assets".
Definition OUTPUT_DIR : string := "/Users/bronya/Desktop/webpage/assets".

Definition FILES : list scene :=
  [ ("HKUST_redbird", "HKUST_redbird.ply", "HKUST_redbird.png", "scene1");
    ("HKUST_INTR", "HKUST_INTR.ply", "HKUST_INTR.png", "scene2");
    ("HKUST_toy", "HKUST_toy.ply", "HKUST_toy.png", "scene3");
    ("cartoon", "cartoon.ply", "cartoon.jpg", "scene4");
    ("room", "room.ply", "room.png", "scene5") ]%string.

(** Lines 106-146. *)
Definition main {world : Type} (os : platform world)
    (draws : nat -> nat -> nat -> list nat) (fuel : nat) (w : world)
  : outcome (world * list event) :=
  w0 <- makedirs os w (OUTPUT_DIR ++ "/samples")%string ;;
  run_scenes os draws 0 fuel SOURCE_DIR OUTPUT_DIR w0 FILES.


(** ** A machine to run [main] on *)

(** Files kept by path: a machine without links, and without a directory
    at any path that is written. *)
Record flat_world : Type := FlatWorld {
  fw_exists : string -> bool;
  fw_files : filesystem
}.

Definition flat_store (w : flat_world) (path : string) (content : bytes)
  : flat_world :=
  FlatWorld (fun p => if String.eqb p path then true else fw_exists w p)
            (FileSystem
               (fun p => if String.eqb p path then Some content
                         else fs_read (fw_files w) p)
               (fs_writable (fw_files w))).

(** [shutil.copy] there: the content of [src] written to [dst]; the same
    file twice is refused. *)
Definition flat_copy (w : flat_world) (src dst : string) : outcome flat_world :=
  if String.eqb src dst then Raises OSError
  else
    match fs_read (fw_files w) src with
    | None => Raises OSError
    | Some content =>
        if fs_writable (fw_files w) dst then Returns (flat_store w dst content)
        else Raises OSError
    end.

(** [makedirs_ok]: whether the output directory can be made. *)
Definition flat_os (makedirs_ok : bool) : platform flat_world :=
  Platform (fun w _ => if makedirs_ok then Returns w else Raises OSError)
           fw_exists fw_files flat_store flat_copy.

(** ** Further notions *)

(** The colour of a row is made of three bytes. *)
Definition byte_colored (v : vertex) : Prop :=
  exists r g b,
    0 <= r <= 255 /\ 0 <= g <= 255 /\ 0 <= b <= 255 /\
    color v = (f32_of_int r, f32_of_int g, f32_of_int b).

(** The colour read from a record: its first three byte fields, or gray. *)
Definition record_color (props : list kind) (data : bytes) : list Z :=
  match byte_fields props data with
  | r :: g :: b :: _ => [r; g; b]
  | _ => [128; 128; 128]
  end.

(** [f] holds on the [2 ^ n] numbers from [base * 2 ^ n] on. *)
Fixpoint all_below (n : nat) (f : Z -> bool) (base : Z) : bool :=
  match n with
  | O => f base
  | S n' => all_below n' f (2 * base) && all_below n' f (2 * base + 1)
  end.

(** Packing the binary16 number of pattern [bits] gives [bits] back. *)
Definition half_round_trip_ok (bits : Z) : bool :=
  match decode_ieee 10 5 bits with
  | S754_nan => true
  | x =>
      match float32_to_float16_bytes x with
      | Returns b => Z.eqb (le_int b) bits && Nat.eqb (List.length b) 2
      | _ => false
      end
  end.

(** [int(np.float32(n))] is [n]. *)
Definition byte_round_trip_ok (n : Z) : bool :=
  match py_int_of_float (f32_of_int n) with
  | Returns m => Z.eqb m n
  | _ => false
  end.

(** ** Further sample inputs *)

(** A header whose comment mentions the end marker before the end. *)
Definition header_early_marker : bytes := lit
"ply
comment written before end_header
element vertex 1
end_header
".

Definition more_fs : filesystem :=
  FileSystem
    (fun p =>
       if String.eqb p "cut.ply" then Some (lit "ply
format binary_little_endian 1.0
element vertex 1
")
       else if String.eqb p "far_y.ply"
            then Some (header_xyz_rgb
                       ++ bs [0; 0; 192; 127; 0; 0; 0; 0; 0; 0; 0; 0; 1; 2; 3]
                       ++ bs [0; 0; 0; 0; 0; 80; 67; 72; 0; 0; 0; 0; 4; 5; 6])%list
       else fs_read sample_fs p)%string
    (fs_writable sample_fs).

(** A world with the first scene of [FILES]: a PLY without end marker. *)
Definition stuck_world : flat_world :=
  FlatWorld (fun p => String.eqb p (SOURCE_DIR ++ "/HKUST_redbird.ply"))%string
        (FileSystem
           (fun p => if String.eqb p (SOURCE_DIR ++ "/HKUST_redbird.ply")
                     then Some (lit "ply
element vertex 1
") else None)%string
           (fun _ => true)).

(** A world with the PLY and the preview of the first scene only; the PLY
    is [scene.ply]. *)
Definition one_scene_world : flat_world :=
  FlatWorld (fun p => String.eqb p (SOURCE_DIR ++ "/HKUST_redbird.ply")
                  || String.eqb p (SOURCE_DIR ++ "/HKUST_redbird.png"))%string
        (FileSystem
           (fun p => if String.eqb p (SOURCE_DIR ++ "/HKUST_redbird.ply")
                     then Some (header_xyz_rgb ++ body_four)%list
                     else if String.eqb p (SOURCE_DIR ++ "/HKUST_redbird.png")
                     then Some (bs [137; 80; 78; 71])
                     else None)%string
           (fun _ => true)).

(** A table of one vertex. *)
Definition single_row : list vertex :=
  [ Vertex (f32_of_int 10) (S754_zero false) (S754_zero false)
           (f32_of_int 4) (f32_of_int 5) (f32_of_int 6) ].


(** The table of [far_y.ply]: (NaN, 0, 0) and (0, 200000, 0). *)
Definition far_y_rows : list vertex :=
  [ Vertex S754_nan (S754_zero false) (S754_zero false)
           (f32_of_int 1) (f32_of_int 2) (f32_of_int 3);
    Vertex (S754_zero false) (decode_ieee 23 8 0x48435000) (S754_zero false)
           (f32_of_int 4) (f32_of_int 5) (f32_of_int 6) ].

(** What is left of the output for [far_y.ply]: the count and one x. *)
Definition cut_splat : bytes := bs [2; 0; 0; 0; 0; 126].

(** A world where nothing can be written: the PLY of the first scene
    declares one field only, the preview of the second scene exists. *)
Definition broken_world : flat_world :=
  FlatWorld (fun p => String.eqb p (SOURCE_DIR ++ "/HKUST_redbird.ply")
                  || String.eqb p (SOURCE_DIR ++ "/HKUST_INTR.png"))%string
        (FileSystem
           (fun p => if String.eqb p (SOURCE_DIR ++ "/HKUST_redbird.ply")
                     then Some (header_one_prop ++ body_one_float)%list
                     else if String.eqb p (SOURCE_DIR ++ "/HKUST_INTR.png")
                     then Some (bs [137; 80; 78; 71])
                     else None)%string
           (fun _ => false)).

(** The same draw in every round. *)
Definition first_draws (i n k : nat) : list nat := first_indices n k.

(** * Properties *)

(** ** Outcomes *)

Lemma bind_returns {A B : Type} (c : outcome A) (k : A -> outcome B) (b : B) :
  bind c k = Returns b -> exists a, c = Returns a /\ k a = Returns b.
Proof.
  destruct c as [a | e | | ]; simpl; intros H; try discriminate.
  exists a; split; [reflexivity | exact H].
Qed.

Ltac inv_bind H :=
  let a := fresh "a" in
  let Ha := fresh "Ha" in
  apply bind_returns in H; destruct H as [a [Ha H]].

(** ** Bytes *)

Lemma byte_val_range (c : ascii) : 0 <= byte_val c <= 255.
Proof.
  unfold byte_val. pose proof (N_ascii_bounded c) as H. lia.
Qed.

Lemma le_bytes_length (n : nat) (z : Z) : List.length (le_bytes n z) = n.
Proof.
  revert z; induction n as [| n IH]; intros z; simpl; [reflexivity |].
  now rewrite IH.
Qed.

Lemma startswith_app (p s t : list ascii) :
  startswith p s = true -> startswith p (s ++ t) = true.
Proof.
  revert s; induction p as [| a p IH]; intros s H; [reflexivity |].
  destruct s as [| b s]; simpl in *; [discriminate |].
  apply andb_true_iff in H; destruct H as [Hab Hrest].
  rewrite Hab; simpl. now apply IH.
Qed.

Lemma contains_app_l (p s t : list ascii) :
  contains p s = true -> contains p (s ++ t) = true.
Proof.
  induction s as [| c s IH]; simpl; intros H.
  - rewrite orb_false_r in H. destruct p; [| discriminate].
    destruct t; reflexivity.
  - apply orb_true_iff in H; destruct H as [H | H].
    + apply (startswith_app p (c :: s) t) in H. simpl in H.
      rewrite H; reflexivity.
    + rewrite (IH H). apply orb_true_r.
Qed.

Lemma contains_app_r (p s t : list ascii) :
  contains p t = true -> contains p (s ++ t) = true.
Proof.
  induction s as [| c s IH]; simpl; intros H; [exact H |].
  rewrite (IH H). apply orb_true_r.
Qed.

(** ** The header loop *)

Lemma readline_app (f : bytes) :
  let (line, rest) := readline f in f = (line ++ rest)%list.
Proof.
  induction f as [| c f IH]; simpl; [reflexivity |].
  destruct (is_newline c); [reflexivity |].
  destruct (readline f) as [l r]. simpl. now rewrite <- IH.
Qed.

Lemma readline_is_line (l rest : bytes) :
  is_line l = true -> readline (l ++ rest) = (l, rest).
Proof.
  induction l as [| c l IH]; simpl; [discriminate |].
  destruct l as [| c' l'].
  - intros ->. reflexivity.
  - intros H. apply andb_true_iff in H; destruct H as [Hc Hl].
    apply negb_true_iff in Hc. rewrite Hc.
    rewrite (IH Hl). reflexivity.
Qed.

(** The loop ends at the first line that contains [end_header], as soon
    as it is allowed one round per line: the header is everything up to
    the end of that line. *)
Lemma read_header_finds (ls : list bytes) (last_line body : bytes) :
  forallb plain_line ls = true ->
  is_line last_line = true ->
  contains END_HEADER last_line = true ->
  forall (fuel : nat) (acc : bytes),
    (List.length ls < fuel)%nat ->
    read_header fuel (List.concat ls ++ last_line ++ body) acc
    = Returns ((acc ++ List.concat ls ++ last_line)%list, body).
Proof.
  intros Hls Hlast Hend.
  induction ls as [| l ls IH]; intros fuel acc Hfuel;
    (destruct fuel as [| fuel]; [simpl in Hfuel; lia |]).
  - simpl. rewrite (readline_is_line _ _ Hlast), Hend. reflexivity.
  - simpl in Hls. apply andb_true_iff in Hls; destruct Hls as [Hl Hls].
    unfold plain_line in Hl. apply andb_true_iff in Hl; destruct Hl as [Hl Hno].
    apply negb_true_iff in Hno.
    cbn [read_header List.concat]. rewrite <- app_assoc.
    rewrite (readline_is_line _ _ Hl), Hno.
    rewrite (IH Hls fuel (acc ++ l)%list) by (simpl in Hfuel; lia).
    now rewrite <- !app_assoc.
Qed.

(** Without an [end_header] anywhere in the file the loop never ends: at
    the end of the file [readline] keeps returning the empty line. *)
Lemma read_header_never_ends (fuel : nat) (f acc : bytes) :
  contains END_HEADER f = false -> read_header fuel f acc = OutOfFuel.
Proof.
  revert f acc; induction fuel as [| fuel IH]; intros f acc Hf; [reflexivity |].
  simpl. pose proof (readline_app f) as Happ.
  destruct (readline f) as [line rest]. subst f.
  destruct (contains END_HEADER line) eqn:Hline.
  - now rewrite (contains_app_l _ _ rest Hline) in Hf.
  - apply IH. destruct (contains END_HEADER rest) eqn:Hrest; [| reflexivity].
    now rewrite (contains_app_r _ line _ Hrest) in Hf.
Qed.

Lemma parse_ply_never_ends (fuel : nat) (fs : filesystem) (p : string) (f : bytes) :
  fs_read fs p = Some f -> contains END_HEADER f = false ->
  parse_ply fuel fs p = OutOfFuel.
Proof.
  intros Hf Hno. unfold parse_ply. rewrite Hf.
  now rewrite (read_header_never_ends fuel f [] Hno).
Qed.

Lemma parse_ply_via_header (fuel : nat) (fs : filesystem) (p : string) :
  parse_ply fuel fs p =
  ('(vertex_count, props, body) <- parse_header fuel fs p ;;
   vertices <- read_vertices (Z.to_nat vertex_count) props body ;;
   Returns (np_array vertices)).
Proof.
  unfold parse_ply, parse_header.
  destruct (fs_read fs p) as [f |]; [| reflexivity].
  destruct (read_header fuel f []) as [[header body] | e | | ]; simpl; try reflexivity.
  destruct (decode_utf8 header) as [hs | e | | ]; simpl; try reflexivity.
  destruct (find_vertex_count (split_nl hs)); reflexivity.
Qed.

(** ** Decoding records *)

Lemma unpack_fields_length (props : list kind) (data : bytes) :
  List.length (unpack_fields props data) = List.length props.
Proof.
  revert data; induction props as [| k ps IH]; intros data; simpl;
    [reflexivity | now rewrite IH].
Qed.

Lemma calcsize_ge_length (props : list kind) :
  (List.length props <= calcsize props)%nat.
Proof.
  induction props as [| k ps IH]; simpl; [lia |].
  destruct k; simpl; lia.
Qed.

Lemma unpack_exact (props : list kind) (data : bytes) :
  List.length data = calcsize props ->
  unpack props data = Returns (unpack_fields props data).
Proof.
  intros H. unfold unpack. now rewrite H, Nat.eqb_refl.
Qed.

Lemma unpack_returns (props : list kind) (data : bytes) (values : list pyval) :
  unpack props data = Returns values -> values = unpack_fields props data.
Proof.
  unfold unpack. destruct (Nat.eqb _ _); [| discriminate].
  now intros [= <-].
Qed.

(** A record of three fields or more decodes: its position is made of the
    first three values of the record. *)
Lemma decode_vertex_position (values : list pyval) :
  (3 <= List.length values)%nat ->
  exists t, decode_vertex values = Returns t /\
            nth_error values 0 = Some (t_x t) /\
            nth_error values 1 = Some (t_y t) /\
            nth_error values 2 = Some (t_z t).
Proof.
  destruct values as [| x [| y [| z rest]]]; simpl; try lia; intros _.
  unfold decode_vertex, tuple_get; cbn [nth_error bind].
  destruct (filter is_uchar (x :: y :: z :: rest)) as [| r [| g [| b more]]];
    eexists; (split; [reflexivity | simpl; auto]).
Qed.

Lemma decode_vertex_short (values : list pyval) :
  (List.length values < 3)%nat -> decode_vertex values = Raises IndexError.
Proof.
  destruct values as [| x [| y [| z rest]]]; simpl; intros H;
    try reflexivity; lia.
Qed.

Lemma decode_vertex_color (values : list pyval) (t : pytuple6) :
  decode_vertex values = Returns t ->
  (t_r t, t_g t, t_b t) =
  match filter is_uchar values with
  | r :: g :: b :: _ => (r, g, b)
  | _ => (VInt 128, VInt 128, VInt 128)
  end.
Proof.
  unfold decode_vertex. intros H.
  inv_bind H. inv_bind H. inv_bind H.
  destruct (filter is_uchar values) as [| r [| g [| b more]]];
    injection H as <-; reflexivity.
Qed.

(** The values the loop classifies as colours by looking at their Python
    type and range are the fields declared as bytes: [struct.unpack] gives
    an [int] for a byte and a [float] for every other field. *)
Lemma filter_is_uchar_fields (props : list kind) (data : bytes) :
  filter is_uchar (unpack_fields props data) = map VInt (byte_fields props data).
Proof.
  revert data; induction props as [| k ps IH]; intros data; [reflexivity |].
  destruct k;
    cbn [unpack_fields byte_fields unpack_field filter is_uchar map width];
    rewrite IH; try reflexivity.
  assert (Hb : 0 <= le_int (firstn 1 data) <= 255).
  { destruct data as [| c d]; simpl; [lia |].
    pose proof (byte_val_range c). lia. }
  destruct (Z.leb_spec 0 (le_int (firstn 1 data))); [| lia].
  destruct (Z.leb_spec (le_int (firstn 1 data)) 255); [| lia].
  reflexivity.
Qed.

Lemma byte_fields_length (props : list kind) (data : bytes) :
  List.length (byte_fields props data) = List.length (filter is_byte_kind props).
Proof.
  revert data; induction props as [| k ps IH]; intros data; [reflexivity |].
  destruct k; simpl; now rewrite IH.
Qed.

Lemma record_at_succ (props : list kind) (f : bytes) (i : nat) :
  record_at props (skipn (calcsize props) f) i = record_at props f (S i).
Proof.
  unfold record_at. rewrite skipn_skipn. f_equal. f_equal. simpl. lia.
Qed.

Lemma record_at_zero (props : list kind) (f : bytes) :
  record_at props f 0 = firstn (calcsize props) f.
Proof. reflexivity. Qed.

(** Every tuple the loop appends is the decoding of the record at its
    index. *)
Lemma read_vertices_decodes (n : nat) (props : list kind) :
  forall (f : bytes) (vs : list pytuple6),
    read_vertices n props f = Returns vs ->
    (List.length vs <= n)%nat /\
    forall i t, nth_error vs i = Some t -> record_decodes props f i t.
Proof.
  induction n as [| n IH]; intros f vs H; simpl in H.
  - injection H as <-. split; [simpl; lia |].
    intros [| i] t Hi; discriminate.
  - destruct (Nat.ltb _ _) eqn:Hshort.
    + injection H as <-. split; [simpl; lia |].
      intros [| i] t Hi; discriminate.
    + inv_bind H. inv_bind H. inv_bind H. injection H as <-.
      destruct (IH _ _ Ha1) as [Hlen Hrest]. split; [simpl; lia |].
      intros [| i] t Hi; simpl in Hi.
      * injection Hi as <-. unfold record_decodes.
        rewrite record_at_zero, Ha. exact Ha0.
      * unfold record_decodes. rewrite <- record_at_succ.
        exact (Hrest i t Hi).
Qed.

(** With three fields or more, the loop yields exactly the records that
    are complete in the body, up to the declared count; with fewer
    fields it still ends quietly when not even one record is complete. *)
Lemma read_vertices_complete (props : list kind) :
  forall (n : nat) (f : bytes) (k : nat),
    (3 <= List.length props \/ k = 0)%nat ->
    (k <= n)%nat ->
    (k * calcsize props <= List.length f)%nat ->
    ((k < n)%nat -> (List.length f < S k * calcsize props)%nat) ->
    exists vs, read_vertices n props f = Returns vs /\ List.length vs = k.
Proof.
  pose proof (calcsize_ge_length props) as Hsize.
  induction n as [| n IH]; intros f k Hprops Hk Hlow Hhigh.
  - exists []. split; [reflexivity | simpl; lia].
  - cbn [read_vertices]. destruct k as [| k].
    + assert (Hlt : (List.length f < calcsize props)%nat) by lia.
      rewrite length_firstn.
      replace (Nat.ltb _ _) with true by (symmetry; apply Nat.ltb_lt; lia).
      exists []. split; reflexivity.
    + destruct Hprops as [Hprops | Hk0]; [| discriminate].
      assert (Hge : (calcsize props <= List.length f)%nat) by lia.
      rewrite length_firstn.
      replace (Nat.ltb _ _) with false by (symmetry; apply Nat.ltb_ge; lia).
      rewrite unpack_exact by (rewrite length_firstn; lia). cbn [bind].
      destruct (decode_vertex_position (unpack_fields props (firstn (calcsize props) f)))
        as [t [Ht _]]; [rewrite unpack_fields_length; lia |].
      rewrite Ht; cbn [bind].
      destruct (IH (skipn (calcsize props) f) k) as [vs [Hvs Hlen]].
      * now left.
      * lia.
      * rewrite length_skipn. lia.
      * rewrite length_skipn. intros Hkn. specialize (Hhigh ltac:(lia)). lia.
      * rewrite Hvs; cbn [bind]. exists (t :: vs). split; [reflexivity | simpl; lia].
Qed.

Lemma np_array_table (vs : list pytuple6) (rows : list vertex) :
  np_array vs = Table rows -> rows = map vertex_of_tuple vs.
Proof.
  destruct vs; simpl; [discriminate | now intros [= <-]].
Qed.

Lemma np_array_len (vs : list pytuple6) : len (np_array vs) = List.length vs.
Proof.
  destruct vs; unfold len; simpl; [reflexivity |].
  now rewrite length_map.
Qed.

(** What a successful [parse_ply] rests on. *)
Lemma parse_ply_returns (fuel : nat) (fs : filesystem) (p : string) (a : ndarray) :
  parse_ply fuel fs p = Returns a ->
  exists vc props body vs,
    parse_header fuel fs p = Returns (vc, props, body) /\
    read_vertices (Z.to_nat vc) props body = Returns vs /\
    a = np_array vs.
Proof.
  rewrite parse_ply_via_header. intros H.
  inv_bind H. destruct a0 as [[vc props] body].
  inv_bind H. injection H as <-.
  now exists vc, props, body, a0.
Qed.

(** Every row of the table [parse_ply] returns is the [float32] cast of
    the decoding of the record at its index. *)
Lemma table_row_decodes (fuel : nat) (fs : filesystem) (p : string)
    (vc : Z) (props : list kind) (body : bytes) (rows : list vertex)
    (i : nat) (row : vertex) :
  parse_header fuel fs p = Returns (vc, props, body) ->
  parse_ply fuel fs p = Returns (Table rows) ->
  nth_error rows i = Some row ->
  exists t, record_decodes props body i t /\ row = vertex_of_tuple t.
Proof.
  intros Hh Hp Hrow.
  destruct (parse_ply_returns _ _ _ _ Hp) as (vc' & props' & body' & vs & Hh' & Hvs & Ha).
  rewrite Hh in Hh'. injection Hh' as <- <- <-.
  symmetry in Ha. apply np_array_table in Ha. subst rows.
  rewrite nth_error_map in Hrow.
  destruct (nth_error vs i) as [t |] eqn:Ht; [| discriminate].
  injection Hrow as <-. exists t. split; [| reflexivity].
  exact (proj2 (read_vertices_decodes _ _ _ _ Hvs) i t Ht).
Qed.

(** The position of a row is made of the first three values of its
    record, of whatever kind they are declared. *)
Lemma position_is_first_three_values (fuel : nat) (fs : filesystem) (p : string)
    (vc : Z) (props : list kind) (body : bytes) (rows : list vertex)
    (i : nat) (row : vertex) :
  parse_header fuel fs p = Returns (vc, props, body) ->
  parse_ply fuel fs p = Returns (Table rows) ->
  nth_error rows i = Some row ->
  exists x y z rest,
    unpack_fields props (record_at props body i) = x :: y :: z :: rest /\
    xyz row = (np_float32 x, np_float32 y, np_float32 z).
Proof.
  intros Hh Hp Hrow.
  destruct (table_row_decodes _ _ _ _ _ _ _ _ _ Hh Hp Hrow) as [t [Ht ->]].
  unfold record_decodes in Ht. inv_bind Ht.
  apply unpack_returns in Ha. subst a.
  destruct (unpack_fields props (record_at props body i))
    as [| x [| y [| z rest]]] eqn:Hvals;
    try (rewrite decode_vertex_short in Ht by (simpl; lia); discriminate).
  exists x, y, z, rest. split; [reflexivity |].
  destruct (decode_vertex_position (x :: y :: z :: rest)) as [t' [Ht' [Hx [Hy Hz]]]];
    [simpl; lia |].
  rewrite Ht in Ht'. injection Ht' as <-.
  simpl in Hx, Hy, Hz. injection Hx as ->. injection Hy as ->. injection Hz as ->.
  reflexivity.
Qed.

(** C1.  The position is meant to be the first three float-kind values of
    the record wherever they are declared.  On a file that declares a
    byte property before [x, y, z] (confidence 200, then 1.0, 2.0, 3.0)
    the loop takes [values[0..2]]: the position stored is (200, 1, 2),
    while the first three float-kind values are (1, 2, 3). *)
Theorem position_shifted_by_leading_byte :
  parse_header 9 sample_fs "byte_first.ply"
    = Returns (1, [KB; Kf; Kf; Kf], body_byte_first) /\
  map (round_to 24 128) (float_fields [KB; Kf; Kf; Kf] body_byte_first)
    = [S754_finite false 8388608 (-23); S754_finite false 8388608 (-22);
       S754_finite false 12582912 (-22)] /\
  exists row,
    parse_ply 9 sample_fs "byte_first.ply" = Returns (Table [row]) /\
    xyz row = (f32_of_int 200, S754_finite false 8388608 (-23),
               S754_finite false 8388608 (-22)).
Proof.
  split; [vm_compute; reflexivity |].
  split; [vm_compute; reflexivity |].
  eexists. split; vm_compute; reflexivity.
Qed.

(** ** The header without a vertex count *)

Lemma find_vertex_count_default (lines : list text) :
  no_vertex_line lines = true -> find_vertex_count lines = Returns 0.
Proof.
  induction lines as [| l ls IH]; simpl; [reflexivity |].
  intros H. apply andb_true_iff in H; destruct H as [Hl Hls].
  apply negb_true_iff in Hl. rewrite Hl. now apply IH.
Qed.

Lemma read_header_more_fuel (fuel : nat) :
  forall (f acc : bytes) (r : bytes * bytes) (extra : nat),
    read_header fuel f acc = Returns r ->
    read_header (fuel + extra) f acc = Returns r.
Proof.
  induction fuel as [| fuel IH]; intros f acc r extra H; [discriminate |].
  simpl in *. destruct (readline f) as [line rest].
  destruct (contains END_HEADER line); [exact H | now apply IH].
Qed.

Lemma parse_ply_more_fuel (fuel extra : nat) (fs : filesystem) (p : string)
    (a : ndarray) :
  parse_ply fuel fs p = Returns a -> parse_ply (fuel + extra) fs p = Returns a.
Proof.
  unfold parse_ply. destruct (fs_read fs p) as [f |]; [| discriminate].
  intros H. inv_bind H.
  now rewrite (read_header_more_fuel _ _ _ _ extra Ha).
Qed.

(** C2, as amended.  A file whose header ends with an [end_header] line,
    is 7-bit, and has no line starting with [element vertex]: as soon as
    the loop is allowed one round per header line, [parse_ply] returns
    the empty table and raises nothing. *)
Theorem missing_vertex_count_returns_empty
    (fs : filesystem) (p : string) (ls : list bytes) (last_line body : bytes)
    (fuel : nat) :
  fs_read fs p = Some (List.concat ls ++ last_line ++ body)%list ->
  forallb plain_line ls = true ->
  is_line last_line = true ->
  contains END_HEADER last_line = true ->
  forallb is_ascii7 (List.concat ls ++ last_line) = true ->
  no_vertex_line (split_nl (List.concat ls ++ last_line)) = true ->
  (List.length ls < fuel)%nat ->
  parse_ply fuel fs p = Returns Empty1D.
Proof.
  intros Hf Hls Hlast Hend Hascii Hno Hfuel.
  unfold parse_ply. rewrite Hf.
  rewrite (read_header_finds ls last_line body Hls Hlast Hend fuel [] Hfuel).
  cbn [bind app]. unfold decode_utf8. rewrite Hascii. cbn [bind].
  rewrite (find_vertex_count_default _ Hno). reflexivity.
Qed.

Lemma missing_vertex_count_returns_empty_witness :
  parse_ply 6 sample_fs "no_count.ply" = Returns Empty1D.
Proof.
  apply (missing_vertex_count_returns_empty sample_fs "no_count.ply"
           [lit "ply
"; lit "format binary_little_endian 1.0
"; lit "property float x
"; lit "property float y
"; lit "property float z
"] (lit "end_header
") (firstn 15 body_four) 6);
    vm_compute; try reflexivity; lia.
Defined.

(** C2, the claim as stated fails: the header of [no_count.ply] has no
    [element vertex] line, and the reader returns the empty table; no
    number of rounds makes it raise. *)
Lemma missing_vertex_count_not_reported :
  no_vertex_line (split_nl header_no_count) = true /\
  parse_ply 6 sample_fs "no_count.ply" = Returns Empty1D /\
  forall fuel e, parse_ply fuel sample_fs "no_count.ply" <> Raises e.
Proof.
  split; [vm_compute; reflexivity |].
  split; [vm_compute; reflexivity |].
  intros fuel e.
  destruct (Nat.le_gt_cases 6 fuel) as [Hge | Hlt].
  - replace fuel with (6 + (fuel - 6))%nat by lia.
    rewrite (parse_ply_more_fuel 6 (fuel - 6) sample_fs "no_count.ply" Empty1D);
      [discriminate | vm_compute; reflexivity].
  - do 6 (destruct fuel as [| fuel]; [vm_compute; discriminate |]). lia.
Qed.

(** ** Colours *)

(** C3.  For every row of the table [parse_ply] returns, the colour is
    made of the first three values of the fields declared as bytes, in
    declaration order; when the schema declares fewer than three such
    fields the colour of every row is (128, 128, 128). *)
Theorem color_is_first_three_bytes (fuel : nat) (fs : filesystem) (p : string)
    (vc : Z) (props : list kind) (body : bytes) (rows : list vertex)
    (i : nat) (row : vertex) :
  parse_header fuel fs p = Returns (vc, props, body) ->
  parse_ply fuel fs p = Returns (Table rows) ->
  nth_error rows i = Some row ->
  color row =
    match byte_fields props (record_at props body i) with
    | r :: g :: b :: _ => (f32_of_int r, f32_of_int g, f32_of_int b)
    | _ => gray
    end
  /\ ((List.length (filter is_byte_kind props) < 3)%nat -> color row = gray).
Proof.
  intros Hh Hp Hrow.
  destruct (table_row_decodes _ _ _ _ _ _ _ _ _ Hh Hp Hrow) as [t [Ht ->]].
  unfold record_decodes in Ht. inv_bind Ht.
  apply unpack_returns in Ha. subst a.
  apply decode_vertex_color in Ht.
  rewrite filter_is_uchar_fields in Ht.
  pose proof (byte_fields_length props (record_at props body i)) as Hlen.
  unfold color, vertex_of_tuple; cbn [v_r v_g v_b].
  destruct (byte_fields props (record_at props body i)) as [| r [| g [| b more]]];
    cbn [map] in Ht; injection Ht as -> -> ->;
    (split; [reflexivity | intros Hfew; simpl in Hlen; try reflexivity; lia]).
Qed.

Lemma color_is_first_three_bytes_witness :
  color (Vertex (S754_finite false 10485760 (-20)) (S754_zero false)
                (S754_zero false) (f32_of_int 4) (f32_of_int 5) (f32_of_int 6))
  = (f32_of_int 4, f32_of_int 5, f32_of_int 6).
Proof.
  refine (proj1 (color_is_first_three_bytes 11 sample_fs "scene.ply" 4
                   [Kf; Kf; Kf; KB; KB; KB] body_four _ 1 _ _ _ _));
    vm_compute; reflexivity.
Defined.

(** ** Short reads *)

(** C7, as amended.  When the schema has at least three fields (or no
    record at all is complete) and the body holds complete bytes for only
    [k] records, [k] below the declared count, [parse_ply] returns
    exactly those [k] records, each decoded from its own bytes, and
    raises nothing. *)
Theorem truncated_body_is_tolerated (fuel : nat) (fs : filesystem) (p : string)
    (vc : Z) (props : list kind) (body : bytes) (k : nat) :
  parse_header fuel fs p = Returns (vc, props, body) ->
  (3 <= List.length props \/ k = 0)%nat ->
  Z.of_nat k < vc ->
  (k * calcsize props <= List.length body < S k * calcsize props)%nat ->
  exists vs,
    parse_ply fuel fs p = Returns (np_array vs) /\
    List.length vs = k /\
    forall i, (i < k)%nat ->
      exists t, nth_error vs i = Some t /\ record_decodes props body i t.
Proof.
  intros Hh Hprops Hk [Hlow Hhigh].
  destruct (read_vertices_complete props (Z.to_nat vc) body k) as [vs [Hvs Hlen]];
    try assumption; try lia.
  exists vs. split; [| split; [exact Hlen |]].
  - rewrite parse_ply_via_header, Hh. cbn [bind]. now rewrite Hvs.
  - intros i Hi.
    destruct (nth_error vs i) as [t |] eqn:Ht.
    + exists t. split; [reflexivity |].
      exact (proj2 (read_vertices_decodes _ _ _ _ Hvs) i t Ht).
    + apply nth_error_None in Ht. lia.
Qed.

Lemma truncated_body_is_tolerated_witness :
  exists vs,
    parse_ply 11 sample_fs "short.ply" = Returns (np_array vs) /\
    List.length vs = 2%nat /\
    forall i, (i < 2)%nat ->
      exists t, nth_error vs i = Some t /\
                record_decodes [Kf; Kf; Kf; KB; KB; KB] (firstn 37 body_four) i t.
Proof.
  apply (truncated_body_is_tolerated 11 sample_fs "short.ply" 4
           [Kf; Kf; Kf; KB; KB; KB] (firstn 37 body_four) 2).
  - vm_compute; reflexivity.
  - left. simpl. lia.
  - lia.
  - vm_compute. lia.
Defined.

(** C7, the claim as stated fails: [one_prop.ply] declares two vertices
    of a single float and holds the four bytes of one; reading that
    record raises [IndexError]. *)
Lemma truncated_short_schema_raises :
  parse_header 6 sample_fs "one_prop.ply"
    = Returns (2, [Kf], body_one_float) /\
  (1 * calcsize [Kf] <= List.length body_one_float < 2 * calcsize [Kf])%nat /\
  parse_ply 6 sample_fs "one_prop.ply" = Raises IndexError.
Proof.
  split; [vm_compute; reflexivity |].
  split; [vm_compute; lia |].
  vm_compute; reflexivity.
Qed.

(** ** The empty table *)

Lemma read_vertices_short (n : nat) (props : list kind) (f : bytes) :
  (List.length f < calcsize props)%nat -> read_vertices n props f = Returns [].
Proof.
  intros H. destruct n as [| n]; [reflexivity |].
  cbn [read_vertices]. rewrite length_firstn.
  now replace (Nat.ltb _ _) with true by (symmetry; apply Nat.ltb_lt; lia).
Qed.

Lemma subsample_empty (random_choice : nat -> nat -> list nat) (r : spec_float) :
  is_finite r = true -> subsample random_choice Empty1D r = Returns Empty1D.
Proof.
  destruct r as [s | s | | s m e]; try discriminate; intros _; reflexivity.
Qed.

(** C10.  When the declared count is not positive, or the body ends
    before the first record is complete, [parse_ply] returns the array of
    shape (0,); on it [convert_to_splat] raises [IndexError] at
    [vertices[:, :3]], and the output file has not been opened. *)
Theorem empty_table_raises_before_open
    (random_choice : nat -> nat -> list nat) (fuel : nat) (fs : filesystem)
    (ply_path splat_path : string) (vc : Z) (props : list kind) (body : bytes)
    (r : spec_float) :
  parse_header fuel fs ply_path = Returns (vc, props, body) ->
  vc <= 0 \/ (List.length body < calcsize props)%nat ->
  is_finite r = true ->
  parse_ply fuel fs ply_path = Returns Empty1D /\
  convert_to_splat random_choice fs Empty1D splat_path r
    = (None, Raises IndexError) /\
  parse_then_convert random_choice fuel fs ply_path splat_path r
    = (None, Raises IndexError).
Proof.
  intros Hh Hempty Hr.
  assert (Hp : parse_ply fuel fs ply_path = Returns Empty1D).
  { rewrite parse_ply_via_header, Hh. cbn [bind].
    destruct Hempty as [Hvc | Hshort].
    - replace (Z.to_nat vc) with 0%nat by lia. reflexivity.
    - now rewrite (read_vertices_short _ _ _ Hshort). }
  assert (Hc : convert_to_splat random_choice fs Empty1D splat_path r
               = (None, Raises IndexError)).
  { unfold convert_to_splat. now rewrite (subsample_empty _ _ Hr). }
  repeat split; try assumption.
  unfold parse_then_convert. now rewrite Hp.
Qed.

Lemma empty_table_raises_before_open_witness :
  parse_ply 11 sample_fs "empty.ply" = Returns Empty1D /\
  convert_to_splat first_indices sample_fs Empty1D "scene.splat" ratio_default
    = (None, Raises IndexError) /\
  parse_then_convert first_indices 11 sample_fs "empty.ply" "scene.splat"
    ratio_default = (None, Raises IndexError).
Proof.
  apply (empty_table_raises_before_open first_indices 11 sample_fs "empty.ply"
           "scene.splat" 0 [Kf; Kf; Kf; KB; KB; KB] [] ratio_default).
  - vm_compute; reflexivity.
  - left; lia.
  - vm_compute; reflexivity.
Defined.

(** ** Sampling *)

Lemma binary_round_aux_sign (prec emax : Z) (s : bool) (m e : Z) (l : location) :
  match binary_round_aux prec emax s m e l with
  | S754_zero s' | S754_infinity s' | S754_finite s' _ _ => s' = s
  | S754_nan => True
  end.
Proof.
  unfold binary_round_aux.
  destruct (shr_fexp prec emax m e l) as [mrs' e'].
  destruct (shr_fexp prec emax _ e' loc_Exact) as [mrs'' e''].
  destruct (shr_m mrs''); [reflexivity | | exact I].
  destruct (Z.leb e'' (emax - prec)); reflexivity.
Qed.

Lemma f64_of_nat_not_negative (n : nat) : not_negative (f64_of_int (Z.of_nat n)).
Proof.
  unfold f64_of_int, binary_normalize.
  destruct (Z.of_nat n) as [| p | p] eqn:Hn; [exact I | | lia].
  unfold binary_round. destruct (shl_align _ _ _) as [mz ez].
  pose proof (binary_round_aux_sign 53 1024 false (Zpos mz) ez loc_Exact) as H.
  destruct (binary_round_aux 53 1024 false (Zpos mz) ez loc_Exact); simpl; auto.
Qed.

Lemma positive_float (r : spec_float) :
  SFltb (S754_zero false) r = true ->
  r = S754_infinity false \/ exists m e, r = S754_finite false m e.
Proof.
  destruct r as [s | [|] | | [|] m e]; try discriminate; intros _;
    [left; reflexivity | right; now exists m, e].
Qed.

Lemma py_float_mul_not_negative (x r : spec_float) :
  not_negative x -> SFltb (S754_zero false) r = true ->
  not_negative (py_float_mul x r).
Proof.
  intros Hx Hr. destruct (positive_float r Hr) as [-> | [m [e ->]]].
  - destruct x as [s | s | | s mx ex]; simpl in *; subst; exact I || reflexivity.
  - destruct x as [s | s | | s mx ex]; simpl in Hx; subst; try exact I;
      try reflexivity.
    unfold py_float_mul, SFmul.
    pose proof (binary_round_aux_sign 53 1024 (xorb false false)
                  (Zpos (mx * m)) (ex + e) loc_Exact) as H.
    destruct (binary_round_aux 53 1024 (xorb false false)
                (Zpos (mx * m)) (ex + e) loc_Exact); simpl; auto.
Qed.

Lemma magnitude_floor_nonneg (m : positive) (e : Z) :
  0 <= (if 0 <=? e then Zpos m * 2 ^ e else Zpos m / 2 ^ (- e)).
Proof.
  destruct (Z.leb_spec 0 e) as [He | He].
  - apply Z.mul_nonneg_nonneg; [lia | apply Z.pow_nonneg; lia].
  - apply Z.div_pos; [lia | apply Z.pow_pos_nonneg; lia].
Qed.

(** On a float that is not negative, the truncation of [int()] is the
    floor, and it is not negative. *)
Lemma py_int_is_floor (x : spec_float) (t : Z) :
  not_negative x -> float_floor x = Some t ->
  py_int_of_float x = Returns t /\ 0 <= t.
Proof.
  destruct x as [s | s | | s m e];
    unfold not_negative, float_floor, py_int_of_float; try discriminate.
  - intros _ [= <-]. split; [reflexivity | lia].
  - intros -> H. injection H as <-. split.
    + cbn [cond_Zopp]. now destruct (0 <=? e).
    + exact (magnitude_floor_nonneg m e).
Qed.






Lemma first_indices_without_replacement :
  choice_without_replacement first_indices.
Proof.
  intros n k Hk. unfold first_indices. split; [apply length_seq |].
  split; [apply seq_NoDup |].
  apply Forall_forall. intros i Hi. apply in_seq in Hi. lia.
Qed.

(** ** The bytes written *)

Lemma byte_val_of (z : Z) : byte_val (byte_of z) = z mod 256.
Proof.
  unfold byte_val, byte_of.
  pose proof (Z.mod_pos_bound z 256 ltac:(lia)) as Hb.
  rewrite N_ascii_embedding by lia. lia.
Qed.

(** Little-endian bytes read back as the number they were made from. *)
Lemma le_int_le_bytes (n : nat) :
  forall z, 0 <= z < 256 ^ Z.of_nat n -> le_int (le_bytes n z) = z.
Proof.
  induction n as [| n IH]; intros z Hz.
  - simpl in *. lia.
  - cbn [le_bytes le_int fold_right].
    change (fold_right (fun b acc => byte_val b + 256 * acc) 0
              (le_bytes n (Z.shiftr z 8)))
      with (le_int (le_bytes n (Z.shiftr z 8))).
    rewrite byte_val_of, Z.shiftr_div_pow2 by lia.
    change (2 ^ 8) with 256.
    rewrite IH.
    + pose proof (Z.div_mod z 256 ltac:(lia)). lia.
    + rewrite Nat2Z.inj_succ, Z.pow_succ_r in Hz by lia.
      split; [apply Z.div_pos; lia | apply Z.div_lt_upper_bound; lia].
Qed.

Lemma pack_e_length (x : spec_float) (b : bytes) :
  pack_e x = Returns b -> List.length b = 2%nat.
Proof.
  unfold pack_e.
  destruct x as [s | s | | s m e]; cbn [round_to].
  1-3: intros [= <-]; reflexivity.
  destruct (binary_round 11 16 s m e); try discriminate;
    intros [= <-]; reflexivity.
Qed.

Lemma io_bind_lift_returns {A B : Type} (c : outcome A) (k : A -> io B)
    (out0 out : bytes) (b : B) :
  io_bind (io_lift c) k out0 = (out, Returns b) ->
  exists a, c = Returns a /\ k a out0 = (out, Returns b).
Proof.
  unfold io_bind, io_lift. destruct c as [a | e | | ]; try discriminate.
  intros H. now exists a.
Qed.

Lemma io_bind_write_returns {B : Type} (data : bytes) (k : unit -> io B)
    (out0 out : bytes) (b : B) :
  io_bind (f_write data) k out0 = (out, Returns b) ->
  k tt (out0 ++ data)%list = (out, Returns b).
Proof. unfold io_bind, f_write. exact (fun H => H). Qed.

Ltac step_lift H x Hx :=
  apply io_bind_lift_returns in H; destruct H as [x [Hx H]].

Lemma write_point_returns (p : position) (v : vertex) (out0 out : bytes) (u : unit) :
  write_point p v out0 = (out, Returns u) ->
  exists rb, point_bytes p v rb /\ out = (out0 ++ rb)%list.
Proof.
  destruct p as [[x y] z]. unfold write_point, float32_to_float16_bytes.
  intros H.
  step_lift H r Hr. step_lift H g Hg. step_lift H b Hb.
  step_lift H bx Hx. apply io_bind_write_returns in H.
  step_lift H by_ Hy. apply io_bind_write_returns in H.
  step_lift H bz Hz. apply io_bind_write_returns in H.
  step_lift H c Hc.
  unfold f_write in H. injection H as <-.
  unfold pack_BBBB in Hc.
  destruct (is_u8 r) eqn:Hur; [| discriminate].
  destruct (is_u8 g) eqn:Hug; [| discriminate].
  destruct (is_u8 b) eqn:Hub; [| discriminate].
  cbn [andb] in Hc. destruct (is_u8 255); [| discriminate].
  injection Hc as <-.
  exists (bx ++ by_ ++ bz ++ [byte_of r; byte_of g; byte_of b; byte_of 255])%list.
  split.
  - exists bx, by_, bz, r, g, b. cbn [px py pz fst snd]. repeat split; assumption.
  - now rewrite <- !app_assoc.
Qed.

Lemma point_bytes_length (p : position) (v : vertex) (rb : bytes) :
  point_bytes p v rb -> List.length rb = 10%nat.
Proof.
  intros (bx & by_ & bz & r & g & b & Hx & Hy & Hz & _ & _ & _ & _ & _ & _ & ->).
  rewrite !length_app, (pack_e_length _ _ Hx), (pack_e_length _ _ Hy),
    (pack_e_length _ _ Hz). reflexivity.
Qed.

(** The loop appends one record per point, in order. *)
Lemma write_points_returns (pvs : list (position * vertex)) :
  forall (out0 out : bytes) (u : unit),
    write_points pvs out0 = (out, Returns u) ->
    exists recs,
      out = (out0 ++ List.concat recs)%list /\
      Forall2 (fun pv rb => point_bytes (fst pv) (snd pv) rb) pvs recs.
Proof.
  induction pvs as [| [p v] rest IH]; intros out0 out u H.
  - cbn in H. injection H as <- _. exists []. split; [| constructor].
    now rewrite app_nil_r.
  - cbn [write_points] in H. unfold io_bind in H at 1.
    destruct (write_point p v out0) as [out1 [[] | e | | ]] eqn:Hpoint;
      try discriminate.
    apply write_point_returns in Hpoint. destruct Hpoint as [rb [Hrb ->]].
    destruct (IH _ _ _ H) as [recs [-> Hall]].
    exists (rb :: recs). split; [cbn; now rewrite <- app_assoc |].
    now constructor.
Qed.

(** Records of one width laid end to end: record [i] sits at [w * i]. *)
Lemma concat_slice {A : Type} (w : nat) (recs : list (list A)) :
  Forall (fun r => List.length r = w) recs ->
  List.length (List.concat recs) = (w * List.length recs)%nat /\
  forall i r, nth_error recs i = Some r ->
    firstn w (skipn (w * i) (List.concat recs)) = r.
Proof.
  induction 1 as [| r0 rest Hr0 _ [IHlen IH]]; cbn [List.concat List.length].
  - split; [lia |]. intros [| i] r Hi; discriminate.
  - split; [rewrite length_app; lia |].
    intros [| i] r Hi; cbn [nth_error] in Hi.
    + injection Hi as <-. rewrite Nat.mul_0_r. cbn [skipn].
      rewrite firstn_app, Hr0, Nat.sub_diag, firstn_all2 by lia.
      cbn. apply app_nil_r.
    + rewrite skipn_app, Hr0, skipn_all2 by lia.
      replace (w * S i - w)%nat with (w * i)%nat by lia.
      now apply IH.
Qed.

Lemma nth_error_combine {A B : Type} (l1 : list A) (l2 : list B) (i : nat)
    (a : A) (b : B) :
  nth_error l1 i = Some a -> nth_error l2 i = Some b ->
  nth_error (combine l1 l2) i = Some (a, b).
Proof.
  revert l2 i; induction l1 as [| x l1 IH]; intros [| y l2] [| i];
    simpl; try discriminate.
  - now intros [= ->] [= ->].
  - apply IH.
Qed.

Lemma Forall2_nth_error_l {A B : Type} (R : A -> B -> Prop)
    (l1 : list A) (l2 : list B) :
  Forall2 R l1 l2 ->
  forall i a, nth_error l1 i = Some a ->
    exists b, nth_error l2 i = Some b /\ R a b.
Proof.
  induction 1 as [| x y l1 l2 Hxy _ IH]; intros [| i] a Hi;
    simpl in Hi; try discriminate.
  - injection Hi as <-. now exists y.
  - now apply IH.
Qed.

Lemma normalize_returns (vertices : ndarray) (positions : list position) :
  normalize vertices = Returns positions ->
  exists rows, vertices = Table rows /\
               List.length positions = List.length rows.
Proof.
  destruct vertices as [| rows]; [discriminate |].
  unfold normalize. intros H. inv_bind H. exists rows. split; [reflexivity |].
  destruct (SFltb _ _); injection H as <-; unfold centered;
    now rewrite ?length_map.
Qed.

Lemma pack_I_returns (n : Z) (h : bytes) :
  pack_I n = Returns h -> h = le_bytes 4 n /\ 0 <= n < 2 ^ 32.
Proof.
  unfold pack_I.
  destruct (Z.leb_spec 0 n); destruct (Z.ltb_spec n (2 ^ 32)); cbn [andb];
    try discriminate.
  intros Hh. split; [congruence | lia].
Qed.

(** How a call that opened the file came to do so. *)
Lemma convert_to_splat_opened (random_choice : nat -> nat -> list nat)
    (fs : filesystem) (vertices : ndarray) (path : string) (r : spec_float)
    (out : bytes) (res : outcome pyobj) :
  convert_to_splat random_choice fs vertices path r = (Some out, res) ->
  exists rows positions wres,
    subsample random_choice vertices r = Returns (Table rows) /\
    normalize (Table rows) = Returns positions /\
    List.length positions = List.length rows /\
    fs_writable fs path = true /\
    write_splat positions rows [] = (out, wres) /\
    res = (_ <- wres ;; Returns PyNone).
Proof.
  unfold convert_to_splat.
  destruct (subsample random_choice vertices r) as [v' | | | ]; try discriminate.
  destruct (normalize v') as [positions | | | ] eqn:Hnorm; try discriminate.
  destruct (normalize_returns _ _ Hnorm) as [rows [-> Hlen]].
  destruct (fs_writable fs path); [| discriminate].
  cbn [rows_of].
  destruct (write_splat positions rows []) as [out' wres] eqn:Hw.
  intros [= <- <-]. now exists rows, positions, wres.
Qed.

(** The file of a call that returned: the count, then one record per
    point. *)
Lemma convert_to_splat_written (random_choice : nat -> nat -> list nat)
    (fs : filesystem) (vertices : ndarray) (path : string) (r : spec_float)
    (out : bytes) (res : pyobj) :
  convert_to_splat random_choice fs vertices path r = (Some out, Returns res) ->
  exists rows positions recs,
    subsample random_choice vertices r = Returns (Table rows) /\
    normalize (Table rows) = Returns positions /\
    List.length positions = List.length rows /\
    Z.of_nat (List.length rows) < 2 ^ 32 /\
    out = (le_bytes 4 (Z.of_nat (List.length rows)) ++ List.concat recs)%list /\
    Forall2 (fun pv rb => point_bytes (fst pv) (snd pv) rb)
            (combine positions rows) recs.
Proof.
  intros H.
  destruct (convert_to_splat_opened _ _ _ _ _ _ _ H)
    as (rows & positions & wres & Hsub & Hnorm & Hlen & _ & Hw & Hres).
  destruct wres as [[] | | | ]; try discriminate. clear Hres.
  unfold write_splat in Hw. step_lift Hw h Hh.
  apply io_bind_write_returns in Hw. cbn [app] in Hw.
  destruct (pack_I_returns _ _ Hh) as [-> [_ Hlt]].
  destruct (write_points_returns _ _ _ _ Hw) as [recs [-> Hall]].
  now exists rows, positions, recs.
Qed.

Lemma records_are_ten_bytes (pvs : list (position * vertex)) (recs : list bytes) :
  Forall2 (fun pv rb => point_bytes (fst pv) (snd pv) rb) pvs recs ->
  Forall (fun rb => List.length rb = 10%nat) recs.
Proof.
  induction 1 as [| pv rb pvs recs Hpv _ IH]; constructor;
    [exact (point_bytes_length _ _ _ Hpv) | exact IH].
Qed.

Lemma header_then_records (h body : bytes) :
  List.length h = 4%nat ->
  firstn 4 (h ++ body) = h /\
  forall n, skipn (4 + n) (h ++ body) = skipn n body.
Proof.
  intros Hh. split.
  - rewrite firstn_app, Hh, Nat.sub_diag, firstn_all2 by lia.
    cbn [firstn]. apply app_nil_r.
  - intros n. rewrite skipn_app, Hh, skipn_all2 by lia.
    now replace (4 + n - 4)%nat with n by lia.
Qed.

(** C6.  When [convert_to_splat] returns, the file holds: the number of
    records kept as an unsigned 32-bit little-endian integer, then ten
    bytes per record, in order: x, y, z as little-endian binary16, the
    colour components truncated to integers, and 255; [4 + 10 x count]
    bytes in all. *)
Theorem splat_layout (random_choice : nat -> nat -> list nat)
    (fs : filesystem) (vertices : ndarray) (path : string) (r : spec_float)
    (out : bytes) (res : pyobj) :
  convert_to_splat random_choice fs vertices path r = (Some out, Returns res) ->
  exists rows positions,
    subsample random_choice vertices r = Returns (Table rows) /\
    normalize (Table rows) = Returns positions /\
    List.length out = (4 + 10 * List.length rows)%nat /\
    firstn 4 out = le_bytes 4 (Z.of_nat (List.length rows)) /\
    le_int (firstn 4 out) = Z.of_nat (List.length rows) /\
    forall i v, nth_error rows i = Some v ->
      exists p, nth_error positions i = Some p /\
                point_bytes p v (firstn 10 (skipn (4 + 10 * i) out)).
Proof.
  intros H.
  destruct (convert_to_splat_written _ _ _ _ _ _ _ H)
    as (rows & positions & recs & Hsub & Hnorm & Hlen & Hlt & -> & Hall).
  exists rows, positions. split; [exact Hsub |]. split; [exact Hnorm |].
  destruct (concat_slice 10 recs (records_are_ten_bytes _ _ Hall))
    as [Hsize Hslice].
  pose proof (Forall2_length Hall) as Hcount.
  rewrite length_combine, Hlen, Nat.min_id in Hcount.
  destruct (header_then_records (le_bytes 4 (Z.of_nat (List.length rows)))
              (List.concat recs) (le_bytes_length 4 _)) as [Hfirst Hskip].
  unfold bytes in *.
  split; [rewrite length_app, le_bytes_length, Hsize; lia |].
  split; [exact Hfirst |].
  split.
  { rewrite Hfirst. apply le_int_le_bytes.
    change (256 ^ Z.of_nat 4) with (2 ^ 32). lia. }
  intros i v Hv.
  destruct (nth_error positions i) as [p |] eqn:Hp.
  - exists p. split; [reflexivity |].
    pose proof (nth_error_combine _ _ _ _ _ Hp Hv) as Hpv.
    destruct (Forall2_nth_error_l _ _ _ Hall _ _ Hpv) as [rb [Hrb Hbytes]].
    now rewrite Hskip, (Hslice _ _ Hrb).
  - apply nth_error_None in Hp.
    assert (i < List.length rows)%nat by (apply nth_error_Some; congruence). lia.
Qed.

Lemma splat_layout_witness :
  exists rows positions,
    subsample first_indices (Table sample_rows) ratio_one = Returns (Table rows) /\
    normalize (Table rows) = Returns positions /\
    List.length sample_splat = (4 + 10 * List.length rows)%nat /\
    firstn 4 sample_splat = le_bytes 4 (Z.of_nat (List.length rows)) /\
    le_int (firstn 4 sample_splat) = Z.of_nat (List.length rows) /\
    forall i v, nth_error rows i = Some v ->
      exists p, nth_error positions i = Some p /\
                point_bytes p v (firstn 10 (skipn (4 + 10 * i) sample_splat)).
Proof.
  apply (splat_layout first_indices sample_fs (Table sample_rows) "scene.splat"
           ratio_one sample_splat PyNone).
  vm_compute; reflexivity.
Defined.

(** ** Ratio 1.0 keeps every record *)

Lemma digits2_pos_iter_xO (p k : positive) :
  Zpos (digits2_pos (Pos.iter xO p k)) = Zpos (digits2_pos p) + Zpos k.
Proof.
  induction k as [| k IH] using Pos.peano_ind.
  - simpl. lia.
  - rewrite Pos.iter_succ. cbn [digits2_pos]. lia.
Qed.

Lemma Zpos_iter_xO (p k : positive) :
  Zpos (Pos.iter xO p k) = Zpos p * 2 ^ Zpos k.
Proof.
  induction k as [| k IH] using Pos.peano_ind.
  - simpl. lia.
  - rewrite Pos.iter_succ, Pos2Z.inj_succ, Z.pow_succ_r by lia.
    rewrite Pos2Z.inj_xO, IH. lia.
Qed.

Lemma digits2_pos_bounds (p : positive) :
  2 ^ (Zpos (digits2_pos p) - 1) <= Zpos p < 2 ^ Zpos (digits2_pos p).
Proof.
  induction p as [p IH | p IH | ]; cbn [digits2_pos].
  - rewrite Pos2Z.inj_succ, Z.pow_succ_r by lia.
    replace (Z.succ (Zpos (digits2_pos p)) - 1) with (Z.succ (Zpos (digits2_pos p) - 1)) by lia.
    rewrite Z.pow_succ_r by lia. lia.
  - rewrite Pos2Z.inj_succ, Z.pow_succ_r by lia.
    replace (Z.succ (Zpos (digits2_pos p)) - 1) with (Z.succ (Zpos (digits2_pos p) - 1)) by lia.
    rewrite Z.pow_succ_r by lia. lia.
  - simpl. lia.
Qed.

(** A mantissa of 53 digits at an exponent in range needs no rounding. *)
Lemma binary_round_aux_canonical (m : positive) (e : Z) :
  Zpos (digits2_pos m) = 53 -> -1074 <= e <= 971 ->
  binary_round_aux 53 1024 false (Zpos m) e loc_Exact = S754_finite false m e.
Proof.
  intros Hd He.
  assert (Hshift : fexp 53 1024 (Zdigits2 (Zpos m) + e) - e = 0).
  { cbn [Zdigits2]. unfold fexp, emin. lia. }
  unfold binary_round_aux, shr_fexp. rewrite Hshift.
  cbn [shr shr_record_of_loc shr_m loc_of_shr_record round_nearest_even].
  rewrite Hshift. cbn [shr shr_m].
  now replace (e <=? 1024 - 53) with true by (symmetry; apply Z.leb_le; lia).
Qed.

(** [float(n)] is exact for a count that fits 52 bits. *)
Lemma f64_of_int_exact (p : positive) :
  Zpos p < 2 ^ 52 ->
  exists k, f64_of_int (Zpos p) = S754_finite false (Pos.iter xO p k) (Zneg k) /\
            Zpos (digits2_pos (Pos.iter xO p k)) = 53 /\ Zpos k <= 52.
Proof.
  intros Hp. pose proof (digits2_pos_bounds p) as [Hlow _].
  assert (Hd : Zpos (digits2_pos p) <= 52).
  { destruct (Z.le_gt_cases (Zpos (digits2_pos p)) 52) as [H | H]; [exact H |].
    assert (2 ^ 52 <= 2 ^ (Zpos (digits2_pos p) - 1))
      by (apply Z.pow_le_mono_r; lia).
    lia. }
  unfold f64_of_int, binary_normalize, binary_round, shl_align.
  assert (Hf : fexp 53 1024 (Zpos (digits2_pos p) + 0) - 0
               = Zpos (digits2_pos p) - 53) by (unfold fexp, emin; lia).
  destruct (fexp 53 1024 (Zpos (digits2_pos p) + 0) - 0) as [| k | k] eqn:Hk;
    try lia.
  assert (Hfe : fexp 53 1024 (Zpos (digits2_pos p) + 0) = Zneg k) by lia.
  rewrite Hfe. exists k.
  assert (Hdig : Zpos (digits2_pos (Pos.iter xO p k)) = 53)
    by (rewrite digits2_pos_iter_xO; lia).
  rewrite binary_round_aux_canonical by (try exact Hdig; lia).
  repeat split; [exact Hdig | lia].
Qed.

(** Multiplying by 1.0 changes nothing. *)
Lemma py_float_mul_one (m : positive) (e : Z) :
  Zpos (digits2_pos m) = 53 -> -1074 <= e <= 971 ->
  py_float_mul (S754_finite false m e) ratio_one = S754_finite false m e.
Proof.
  intros Hd He. unfold py_float_mul, ratio_one, SFmul.
  rewrite Pos.mul_comm. cbn [Pos.mul xorb].
  unfold binary_round_aux at 1, shr_fexp at 1. cbn [Zdigits2 digits2_pos].
  rewrite !Pos2Z.inj_succ, Hd.
  replace (fexp 53 1024 _ - (e + -52)) with 52 by (unfold fexp, emin; lia).
  cbn [shr shr_record_of_loc iter_pos shr_1 orb shr_m loc_of_shr_record
       round_nearest_even].
  replace (e + -52 + 52) with e by lia.
  assert (Hshift : fexp 53 1024 (Zdigits2 (Zpos m) + e) - e = 0).
  { cbn [Zdigits2]. unfold fexp, emin. lia. }
  unfold shr_fexp. rewrite Hshift. cbn [shr shr_record_of_loc shr_m].
  now replace (e <=? 1024 - 53) with true by (symmetry; apply Z.leb_le; lia).
Qed.

Lemma ratio_one_target (n : Z) :
  0 <= n < 2 ^ 52 ->
  (nf <- py_float_of_int n ;; py_int_of_float (py_float_mul nf ratio_one))
  = Returns n.
Proof.
  intros Hn. destruct n as [| p | p]; [reflexivity | | lia].
  destruct (f64_of_int_exact p ltac:(lia)) as [k [Hnf [Hdig Hk]]].
  unfold py_float_of_int. rewrite Hnf. cbn [bind].
  rewrite py_float_mul_one by (try exact Hdig; lia).
  unfold py_int_of_float. cbn [Z.leb Z.compare cond_Zopp Z.opp].
  rewrite Zpos_iter_xO, Z.div_mul; [reflexivity |].
  apply Z.pow_nonzero; lia.
Qed.

Lemma subsample_ratio_one (random_choice : nat -> nat -> list nat)
    (vertices : ndarray) :
  Z.of_nat (len vertices) < 2 ^ 52 ->
  subsample random_choice vertices ratio_one = Returns vertices.
Proof.
  intros Hn. unfold subsample.
  pose proof (ratio_one_target (Z.of_nat (len vertices)) ltac:(lia)) as Ht.
  destruct (py_float_of_int (Z.of_nat (len vertices))) as [nf | | | ];
    cbn [bind] in Ht |- *; try discriminate.
  rewrite Ht. cbn [bind]. now rewrite Z.ltb_irrefl.
Qed.

(** ** The count in the output *)

Lemma appends_lift {A B : Type} (c : outcome A) (k : A -> io B) :
  (forall a, appends (k a)) -> appends (io_bind (io_lift c) k).
Proof.
  intros Hk out0. unfold io_bind, io_lift.
  destruct c as [a | e | | ]; try (exists []; cbn; now rewrite app_nil_r).
  apply Hk.
Qed.

Lemma appends_write {B : Type} (data : bytes) (k : unit -> io B) :
  appends (k tt) -> appends (io_bind (f_write data) k).
Proof.
  intros Hk out0. unfold io_bind, f_write.
  destruct (Hk (out0 ++ data)%list) as [suffix Hs].
  exists (data ++ suffix)%list. now rewrite Hs, app_assoc.
Qed.

Lemma appends_f_write (data : bytes) : appends (f_write data).
Proof. intros out0. now exists data. Qed.

Lemma appends_write_point (p : position) (v : vertex) : appends (write_point p v).
Proof.
  destruct p as [[x y] z]. unfold write_point.
  repeat (first [ apply appends_lift; intros ?
                | apply appends_write
                | apply appends_f_write ]).
Qed.

Lemma appends_write_points (pvs : list (position * vertex)) :
  appends (write_points pvs).
Proof.
  induction pvs as [| [p v] rest IH]; intros out0.
  - exists []. cbn. now rewrite app_nil_r.
  - cbn [write_points]. unfold io_bind.
    destruct (appends_write_point p v out0) as [s1 Hs1].
    destruct (write_point p v out0) as [out1 [[] | e | | ]]; cbn [fst] in Hs1;
      subst out1; try (now exists s1).
    destruct (IH (out0 ++ s1)%list) as [s2 Hs2].
    exists (s1 ++ s2)%list. now rewrite Hs2, app_assoc.
Qed.

(** Once the file is open, the count is the first thing in it, whatever
    happens to the records after it. *)
Lemma write_splat_count (positions : list position) (rows : list vertex) :
  Z.of_nat (List.length rows) < 2 ^ 32 ->
  le_int (firstn 4 (fst (write_splat positions rows [])))
  = Z.of_nat (List.length rows).
Proof.
  intros Hn. unfold write_splat, pack_I.
  replace ((0 <=? Z.of_nat (List.length rows))
           && (Z.of_nat (List.length rows) <? 2 ^ 32)) with true
    by (symmetry; apply andb_true_iff; split;
        [apply Z.leb_le | apply Z.ltb_lt]; lia).
  unfold io_bind at 1, io_lift. unfold io_bind at 1, f_write. cbn [app].
  destruct (appends_write_points (combine positions rows)
              (le_bytes 4 (Z.of_nat (List.length rows)))) as [suffix ->].
  rewrite firstn_app, le_bytes_length, Nat.sub_diag, firstn_all2
    by (rewrite le_bytes_length; lia).
  cbn [firstn]. rewrite app_nil_r.
  apply le_int_le_bytes. change (256 ^ Z.of_nat 4) with (2 ^ 32). lia.
Qed.

Lemma normalize_nonempty (v : vertex) (rest : list vertex) :
  exists positions, normalize (Table (v :: rest)) = Returns positions.
Proof.
  unfold normalize, centered. cbn [map flatten flat_map app np_max bind].
  destruct (SFltb _ _); eexists; reflexivity.
Qed.

(** ** The sampled table *)





(** With a count between 1 and 2^32 - 1, three fields or more, a body
    that holds every record and a writable output, conversion at ratio
    1.0 opens the file and writes the declared count into it. *)
Lemma point_count_round_trip (random_choice : nat -> nat -> list nat)
    (fuel : nat) (fs : filesystem) (ply_path splat_path : string)
    (vc : Z) (props : list kind) (body : bytes) :
  parse_header fuel fs ply_path = Returns (vc, props, body) ->
  (3 <= List.length props)%nat ->
  1 <= vc < 2 ^ 32 ->
  (Z.to_nat vc * calcsize props <= List.length body)%nat ->
  fs_writable fs splat_path = true ->
  exists out res,
    parse_then_convert random_choice fuel fs ply_path splat_path ratio_one
      = (Some out, res) /\
    le_int (firstn 4 out) = vc.
Proof.
  intros Hh Hprops Hvc Hbody Hw.
  destruct (read_vertices_complete props (Z.to_nat vc) body (Z.to_nat vc))
    as [vs [Hvs Hlen]]; try lia.
  unfold parse_then_convert.
  rewrite parse_ply_via_header, Hh. cbn [bind]. rewrite Hvs. cbn [bind].
  destruct vs as [| t vs]; [simpl in Hlen; lia |].
  cbn [np_array map]. unfold convert_to_splat.
  rewrite subsample_ratio_one
    by (unfold len; cbn [rows_of List.length] in *; rewrite length_map; lia).
  destruct (normalize_nonempty (vertex_of_tuple t) (map vertex_of_tuple vs))
    as [positions ->].
  rewrite Hw. cbn [rows_of].
  pose proof (write_splat_count positions
                (vertex_of_tuple t :: map vertex_of_tuple vs)) as Hcount.
  destruct (write_splat positions _ []) as [out wres].
  exists out. eexists. split; [reflexivity |].
  cbn [fst] in Hcount. rewrite Hcount.
  - cbn [List.length] in *. rewrite length_map. lia.
  - cbn [List.length] in *. rewrite length_map. lia.
Qed.

(** C8.  A well-formed file that declares no vertex, converted at ratio
    1.0: [parse_ply] returns the array of shape (0,), [convert_to_splat]
    raises [IndexError] on it and the output is never opened, so that no
    count, 0 or other, is written. *)
Theorem empty_cloud_writes_no_count :
  parse_header 11 sample_fs "empty.ply"
    = Returns (0, [Kf; Kf; Kf; KB; KB; KB], []) /\
  parse_ply 11 sample_fs "empty.ply" = Returns Empty1D /\
  parse_then_convert first_indices 11 sample_fs "empty.ply" "scene.splat"
    ratio_one = (None, Raises IndexError).
Proof.
  repeat split; vm_compute; reflexivity.
Qed.

(** ** What the caller gets *)

Lemma convert_to_splat_returns (random_choice : nat -> nat -> list nat)
    (fs : filesystem) (vertices : ndarray) (path : string) (r : spec_float)
    (sink : option bytes) (res : pyobj) :
  convert_to_splat random_choice fs vertices path r = (sink, Returns res) ->
  res = PyNone /\ exists out, sink = Some out.
Proof.
  unfold convert_to_splat.
  destruct (subsample random_choice vertices r) as [v' | | | ]; try discriminate.
  destruct (normalize v') as [positions | | | ]; try discriminate.
  destruct (fs_writable fs path); [| discriminate].
  destruct (write_splat positions (rows_of v') []) as [out [[] | | | ]];
    cbn [bind]; try discriminate.
  intros [= <- <-]. split; [reflexivity | now exists out].
Qed.

(** C9, as amended.  Parsing then converting (the program has no single
    [convert] and no parse error of its own):
    - when the call returns, it returns [None]; the number of points
      written is the 32-bit integer at the start of the output, which
      holds ten bytes per point after it;
    - when the input cannot be opened, [parse_ply] raises [OSError]
      (the class [IOError] names);
    - when the output cannot be opened, [convert_to_splat] raises
      [OSError], once sampling and normalisation are done. *)
Theorem conversion_outcomes (random_choice : nat -> nat -> list nat)
    (fuel : nat) (fs : filesystem) (ply_path splat_path : string)
    (r : spec_float) :
  (forall sink res,
     parse_then_convert random_choice fuel fs ply_path splat_path r
       = (sink, Returns res) ->
     res = PyNone /\
     exists out count,
       sink = Some out /\
       le_int (firstn 4 out) = Z.of_nat count /\
       List.length out = (4 + 10 * count)%nat) /\
  (fs_read fs ply_path = None ->
   parse_then_convert random_choice fuel fs ply_path splat_path r
     = (None, Raises OSError)) /\
  (forall vertices rows positions,
     parse_ply fuel fs ply_path = Returns vertices ->
     subsample random_choice vertices r = Returns (Table rows) ->
     normalize (Table rows) = Returns positions ->
     fs_writable fs splat_path = false ->
     parse_then_convert random_choice fuel fs ply_path splat_path r
       = (None, Raises OSError)).
Proof.
  split; [| split].
  - intros sink res H. unfold parse_then_convert in H.
    destruct (parse_ply fuel fs ply_path) as [vertices | | | ]; try discriminate.
    destruct (convert_to_splat_returns _ _ _ _ _ _ _ H) as [-> [out ->]].
    split; [reflexivity |].
    destruct (convert_to_splat_written _ _ _ _ _ _ _ H)
      as (rows & positions & recs & _ & _ & Hlen & Hlt & -> & Hall).
    exists (le_bytes 4 (Z.of_nat (List.length rows)) ++ List.concat recs)%list,
      (List.length rows).
    destruct (concat_slice 10 recs (records_are_ten_bytes _ _ Hall)) as [Hsize _].
    pose proof (Forall2_length Hall) as Hcount.
    rewrite length_combine, Hlen, Nat.min_id in Hcount.
    destruct (header_then_records (le_bytes 4 (Z.of_nat (List.length rows)))
                (List.concat recs) (le_bytes_length 4 _)) as [Hfirst _].
    unfold bytes in *.
    split; [reflexivity |]. split.
    + rewrite Hfirst. apply le_int_le_bytes.
      change (256 ^ Z.of_nat 4) with (2 ^ 32). lia.
    + rewrite length_app, le_bytes_length, Hsize. lia.
  - intros Hread. unfold parse_then_convert, parse_ply. now rewrite Hread.
  - intros vertices rows positions Hp Hsub Hnorm Hw.
    unfold parse_then_convert. rewrite Hp.
    unfold convert_to_splat. now rewrite Hsub, Hnorm, Hw.
Qed.

Lemma conversion_outcomes_witness :
  (PyNone = PyNone /\
   exists out count,
     Some sample_splat = Some out /\
     le_int (firstn 4 out) = Z.of_nat count /\
     List.length out = (4 + 10 * count)%nat) /\
  parse_then_convert first_indices 11 sample_fs "missing.ply" "scene.splat"
    ratio_one = (None, Raises OSError) /\
  parse_then_convert first_indices 11 sample_fs "scene.ply" "/proc/scene.splat"
    ratio_one = (None, Raises OSError).
Proof.
  split; [| split].
  - apply (proj1 (conversion_outcomes first_indices 11 sample_fs "scene.ply"
                    "scene.splat" ratio_one) (Some sample_splat) PyNone).
    vm_compute; reflexivity.
  - apply (proj1 (proj2 (conversion_outcomes first_indices 11 sample_fs
                           "missing.ply" "scene.splat" ratio_one))).
    vm_compute; reflexivity.
  - refine (proj2 (proj2 (conversion_outcomes first_indices 11 sample_fs
                            "scene.ply" "/proc/scene.splat" ratio_one))
              (Table sample_rows) sample_rows _ _ _ _ _);
      vm_compute; reflexivity.
Defined.

(** C9, the claim as stated fails: converting [scene.ply] writes four
    points and returns [None], not 4; and the header of [no_count.ply],
    which lacks the vertex count, makes [parse_ply] raise nothing: the
    only error of that conversion is the [IndexError] of the encoder. *)
Lemma conversion_does_not_return_count :
  parse_then_convert first_indices 11 sample_fs "scene.ply" "scene.splat"
    ratio_one = (Some sample_splat, Returns PyNone) /\
  le_int (firstn 4 sample_splat) = 4 /\
  snd (parse_then_convert first_indices 11 sample_fs "scene.ply" "scene.splat"
         ratio_one) <> Returns (PyInt 4) /\
  parse_ply 11 sample_fs "no_count.ply" = Returns Empty1D /\
  parse_then_convert first_indices 11 sample_fs "no_count.ply" "scene.splat"
    ratio_one = (None, Raises IndexError).
Proof.
  split; [vm_compute; reflexivity |].
  split; [vm_compute; reflexivity |].
  split; [vm_compute; discriminate |].
  split; vm_compute; reflexivity.
Qed.

(** ** Normalisation *)

(** The two ways out of lines 82-84: no division is made unless the
    extent compares greater than zero. *)
Lemma normalize_cases (rows : list vertex) (max_extent : spec_float) :
  np_max (map SFabs (flatten (centered rows))) = Returns max_extent ->
  normalize (Table rows) =
  Returns (if SFltb (S754_zero false) max_extent
           then map (pos_map (scale max_extent)) (centered rows)
           else centered rows).
Proof.
  intros H. unfold normalize. rewrite H. cbn [bind].
  now destruct (SFltb (S754_zero false) max_extent).
Qed.

(** C4.  The coordinates written are meant to lie in [-10, 10] whenever
    the extent is greater than zero.  Four vertices at x = 3.0e38: the
    [float32] sum of the column overflows, the centre is at infinity and
    so is every centred x; the extent is plus infinity, which is greater
    than zero, and the scaling computes infinity over infinity: the x
    written for every point is a NaN, which is not in [-10, 10]. *)
Theorem overflowing_centroid_gives_nan :
  exists rows out,
    parse_ply 11 far_fs "far.ply" = Returns (Table rows) /\
    forallb (fun v => is_finite (v_x v) && is_finite (v_y v) && is_finite (v_z v))
            rows = true /\
    np_max (map SFabs (flatten (centered rows))) = Returns (S754_infinity false) /\
    SFltb (S754_zero false) (S754_infinity false) = true /\
    convert_to_splat first_indices far_fs (Table rows) "far.splat" ratio_one
      = (Some out, Returns PyNone) /\
    unpack_e (firstn 2 (skipn 4 out)) = S754_nan /\
    within_ten (unpack_e (firstn 2 (skipn 4 out))) = false.
Proof.
  eexists. eexists.
  split; [vm_compute; reflexivity |].
  split; [vm_compute; reflexivity |].
  split; [vm_compute; reflexivity |].
  split; [reflexivity |].
  split; [vm_compute; reflexivity |].
  split; vm_compute; reflexivity.
Qed.

(** The scenario of the specification: four vertices, among them
    (0,0,0) and (10,0,0), ratio 1.0.  The count written is 4; the point
    at (10,0,0) is written with x = 10 (bytes 00 49), y = 0 and z = 0,
    the other three with x = -3.334 (bytes ab c2). *)
Example scene_at_ratio_one :
  parse_ply 11 sample_fs "scene.ply" = Returns (Table sample_rows) /\
  convert_to_splat first_indices sample_fs (Table sample_rows) "scene.splat"
    ratio_one = (Some sample_splat, Returns PyNone) /\
  le_int (firstn 4 sample_splat) = 4 /\
  unpack_e (firstn 2 (skipn 14 sample_splat)) = ten16 /\
  forallb (fun i => within_ten (unpack_e (firstn 2 (skipn (4 + 10 * i) sample_splat))))
          (seq 0 4) = true.
Proof. repeat split; vm_compute; reflexivity. Qed.

(** At the default ratio, 0.6, two of the four records are kept. *)
Example scene_at_default_ratio :
  floor_times 4 ratio_default = Some 2 /\
  exists out,
    convert_to_splat first_indices sample_fs (Table sample_rows) "scene.splat"
      ratio_default = (Some out, Returns PyNone) /\
    le_int (firstn 4 out) = 2 /\ List.length out = 24%nat.
Proof.
  split; [vm_compute; reflexivity |].
  eexists. split; [vm_compute; reflexivity |]. split; vm_compute; reflexivity.
Qed.

(** When the first three fields are declared as floats, the first three
    values of a record are its first three float-kind values. *)
Lemma leading_floats (k1 k2 k3 : kind) (ps : list kind) (data : bytes) :
  is_byte_kind k1 = false -> is_byte_kind k2 = false -> is_byte_kind k3 = false ->
  exists x y z rest others,
    unpack_fields (k1 :: k2 :: k3 :: ps) data
      = VFloat x :: VFloat y :: VFloat z :: rest /\
    float_fields (k1 :: k2 :: k3 :: ps) data = x :: y :: z :: others.
Proof.
  destruct k1, k2, k3; try discriminate; intros _ _ _;
    cbn [unpack_fields float_fields unpack_field width];
    do 5 eexists; split; reflexivity.
Qed.

(** The position is the first three float-kind values as long as no
    other field is declared before them. *)
Lemma position_when_floats_lead (fuel : nat) (fs : filesystem) (p : string)
    (vc : Z) (k1 k2 k3 : kind) (ps : list kind) (body : bytes)
    (rows : list vertex) (i : nat) (row : vertex) :
  parse_header fuel fs p = Returns (vc, k1 :: k2 :: k3 :: ps, body) ->
  is_byte_kind k1 = false -> is_byte_kind k2 = false -> is_byte_kind k3 = false ->
  parse_ply fuel fs p = Returns (Table rows) ->
  nth_error rows i = Some row ->
  exists x y z others,
    float_fields (k1 :: k2 :: k3 :: ps) (record_at (k1 :: k2 :: k3 :: ps) body i)
      = x :: y :: z :: others /\
    xyz row = (round_to 24 128 x, round_to 24 128 y, round_to 24 128 z).
Proof.
  intros Hh H1 H2 H3 Hp Hrow.
  destruct (position_is_first_three_values _ _ _ _ _ _ _ _ _ Hh Hp Hrow)
    as (vx & vy & vz & rest & Hvals & Hxyz).
  destruct (leading_floats k1 k2 k3 ps
              (record_at (k1 :: k2 :: k3 :: ps) body i) H1 H2 H3)
    as (x & y & z & rest' & others & Hu & Hf).
  rewrite Hu in Hvals. injection Hvals as <- <- <- _.
  exists x, y, z, others. split; [exact Hf | exact Hxyz].
Qed.

(** * Further properties of the reader *)

(** X1.  A file that can be opened and has no [end_header] anywhere makes
    [parse_ply] loop for ever: at the end of the file [readline] returns
    the empty line, in which the marker is not found either. *)
Theorem no_end_header_never_returns (fs : filesystem) (p : string) (f : bytes) :
  fs_read fs p = Some f ->
  contains END_HEADER f = false ->
  forall fuel, parse_ply fuel fs p = OutOfFuel.
Proof.
  intros Hf Hno fuel. unfold parse_ply. rewrite Hf.
  now rewrite (read_header_never_ends fuel f [] Hno).
Qed.

Lemma no_end_header_never_returns_witness :
  parse_ply 1000 more_fs "cut.ply" = OutOfFuel.
Proof.
  apply (no_end_header_never_returns more_fs "cut.ply" (lit "ply
format binary_little_endian 1.0
element vertex 1
")); vm_compute; reflexivity.
Defined.

(** X2.  The header ends with the first line that contains the bytes
    [end_header] anywhere in it, a comment included; the vertex data is
    read from the byte after that line. *)
Theorem header_ends_at_first_marker (ls : list bytes) (last_line body : bytes)
    (fuel : nat) :
  forallb plain_line ls = true ->
  is_line last_line = true ->
  contains END_HEADER last_line = true ->
  (List.length ls < fuel)%nat ->
  read_header fuel (List.concat ls ++ last_line ++ body) []
  = Returns ((List.concat ls ++ last_line)%list, body).
Proof.
  intros Hls Hlast Hend Hfuel.
  exact (read_header_finds ls last_line body Hls Hlast Hend fuel [] Hfuel).
Qed.

Lemma header_ends_at_first_marker_witness :
  read_header 2 header_early_marker []
  = Returns (lit "ply
comment written before end_header
", lit "element vertex 1
end_header
").
Proof.
  apply (header_ends_at_first_marker [lit "ply
"] (lit "comment written before end_header
") (lit "element vertex 1
end_header
") 2); vm_compute; try reflexivity; lia.
Defined.

(** X3.  The position of every row is the [float32] cast of the first
    three values of its record in field order, of whatever kind the
    fields are declared. *)
Theorem position_from_leading_values (fuel : nat) (fs : filesystem) (p : string)
    (vc : Z) (props : list kind) (body : bytes) (rows : list vertex)
    (i : nat) (row : vertex) :
  parse_header fuel fs p = Returns (vc, props, body) ->
  parse_ply fuel fs p = Returns (Table rows) ->
  nth_error rows i = Some row ->
  exists x y z rest,
    unpack_fields props (record_at props body i) = x :: y :: z :: rest /\
    xyz row = (np_float32 x, np_float32 y, np_float32 z).
Proof.
  intros Hh Hp Hrow.
  exact (position_is_first_three_values _ _ _ _ _ _ _ _ _ Hh Hp Hrow).
Qed.

Lemma position_from_leading_values_witness :
  exists x y z rest,
    unpack_fields [KB; Kf; Kf; Kf] (record_at [KB; Kf; Kf; Kf] body_byte_first 0)
      = x :: y :: z :: rest /\
    xyz (Vertex (f32_of_int 200) (S754_finite false 8388608 (-23))
                (S754_finite false 8388608 (-22))
                (f32_of_int 128) (f32_of_int 128) (f32_of_int 128))
      = (np_float32 x, np_float32 y, np_float32 z).
Proof.
  refine (position_from_leading_values 9 sample_fs "byte_first.ply" 1
            [KB; Kf; Kf; Kf] body_byte_first _ 0 _ _ _ _);
    vm_compute; reflexivity.
Defined.

(** X4.  When the first three fields of the schema are declared as floats
    ([float] or [double]), the position of every row is the first three
    float-kind values of its record, rounded to [float32]. *)
Theorem position_from_leading_floats (fuel : nat) (fs : filesystem) (p : string)
    (vc : Z) (k1 k2 k3 : kind) (ps : list kind) (body : bytes)
    (rows : list vertex) (i : nat) (row : vertex) :
  parse_header fuel fs p = Returns (vc, k1 :: k2 :: k3 :: ps, body) ->
  is_byte_kind k1 = false -> is_byte_kind k2 = false -> is_byte_kind k3 = false ->
  parse_ply fuel fs p = Returns (Table rows) ->
  nth_error rows i = Some row ->
  exists x y z others,
    float_fields (k1 :: k2 :: k3 :: ps) (record_at (k1 :: k2 :: k3 :: ps) body i)
      = x :: y :: z :: others /\
    xyz row = (round_to 24 128 x, round_to 24 128 y, round_to 24 128 z).
Proof.
  intros Hh H1 H2 H3 Hp Hrow.
  exact (position_when_floats_lead _ _ _ _ _ _ _ _ _ _ _ _ Hh H1 H2 H3 Hp Hrow).
Qed.

Lemma position_from_leading_floats_witness :
  exists x y z others,
    float_fields [Kf; Kf; Kf; KB; KB; KB]
      (record_at [Kf; Kf; Kf; KB; KB; KB] body_four 1) = x :: y :: z :: others /\
    xyz (Vertex (f32_of_int 10) (S754_zero false) (S754_zero false)
                (f32_of_int 4) (f32_of_int 5) (f32_of_int 6))
      = (round_to 24 128 x, round_to 24 128 y, round_to 24 128 z).
Proof.
  refine (position_from_leading_floats 11 sample_fs "scene.ply" 4 Kf Kf Kf
            [KB; KB; KB] body_four _ 1 _ _ _ _ _ _ _);
    vm_compute; reflexivity.
Defined.

(** X5.  A schema of fewer than three fields cannot be read: as soon as
    the count is positive and the body holds one complete record,
    [parse_ply] raises [IndexError] (at [values[0], values[1],
    values[2]]), truncated body or not. *)
Theorem short_schema_raises (fuel : nat) (fs : filesystem) (p : string)
    (vc : Z) (props : list kind) (body : bytes) :
  parse_header fuel fs p = Returns (vc, props, body) ->
  (List.length props < 3)%nat ->
  1 <= vc ->
  (calcsize props <= List.length body)%nat ->
  parse_ply fuel fs p = Raises IndexError.
Proof.
  intros Hh Hprops Hvc Hbody.
  rewrite parse_ply_via_header, Hh. cbn [bind].
  destruct (Z.to_nat vc) as [| n] eqn:Hn; [lia |].
  cbn [read_vertices]. rewrite length_firstn.
  replace (Nat.ltb _ _) with false by (symmetry; apply Nat.ltb_ge; lia).
  rewrite unpack_exact by (rewrite length_firstn; lia). cbn [bind].
  rewrite decode_vertex_short by (rewrite unpack_fields_length; exact Hprops).
  reflexivity.
Qed.

Lemma short_schema_raises_witness :
  parse_ply 6 sample_fs "one_prop.ply" = Raises IndexError.
Proof.
  apply (short_schema_raises 6 sample_fs "one_prop.ply" 2 [Kf] body_one_float).
  - vm_compute; reflexivity.
  - simpl; lia.
  - lia.
  - vm_compute; lia.
Defined.

(** X6.  With a schema of three fields or more and a body that holds all
    the declared records, [parse_ply] returns exactly as many rows as
    declared, row [i] decoded from the bytes of record [i]; whatever
    follows the last declared record is not read. *)
Theorem complete_body_gives_every_row (fuel : nat) (fs : filesystem) (p : string)
    (vc : Z) (props : list kind) (body : bytes) :
  parse_header fuel fs p = Returns (vc, props, body) ->
  (3 <= List.length props)%nat ->
  (Z.to_nat vc * calcsize props <= List.length body)%nat ->
  exists vs,
    parse_ply fuel fs p = Returns (np_array vs) /\
    List.length vs = Z.to_nat vc /\
    len (np_array vs) = Z.to_nat vc /\
    forall i, (i < Z.to_nat vc)%nat ->
      exists t, nth_error vs i = Some t /\ record_decodes props body i t.
Proof.
  intros Hh Hprops Hbody.
  destruct (read_vertices_complete props (Z.to_nat vc) body (Z.to_nat vc))
    as [vs [Hvs Hlen]]; try lia.
  exists vs. split; [| split; [exact Hlen | split]].
  - rewrite parse_ply_via_header, Hh. cbn [bind]. now rewrite Hvs.
  - now rewrite np_array_len.
  - intros i Hi. destruct (nth_error vs i) as [t |] eqn:Ht.
    + exists t. split; [reflexivity |].
      exact (proj2 (read_vertices_decodes _ _ _ _ Hvs) i t Ht).
    + apply nth_error_None in Ht. lia.
Qed.

Lemma complete_body_gives_every_row_witness :
  exists vs,
    parse_ply 11 sample_fs "scene.ply" = Returns (np_array vs) /\
    List.length vs = Z.to_nat 4 /\
    len (np_array vs) = Z.to_nat 4 /\
    forall i, (i < Z.to_nat 4)%nat ->
      exists t, nth_error vs i = Some t /\
                record_decodes [Kf; Kf; Kf; KB; KB; KB] body_four i t.
Proof.
  apply (complete_body_gives_every_row 11 sample_fs "scene.ply" 4
           [Kf; Kf; Kf; KB; KB; KB] body_four).
  - vm_compute; reflexivity.
  - simpl; lia.
  - vm_compute; lia.
Defined.

(** * Further properties of the encoder *)

Lemma all_below_spec (f : Z -> bool) (n : nat) :
  forall base, all_below n f base = true ->
  forall z, base * 2 ^ Z.of_nat n <= z < (base + 1) * 2 ^ Z.of_nat n ->
            f z = true.
Proof.
  induction n as [| n IH]; intros base H z Hz.
  - cbn in Hz. replace z with base by lia. exact H.
  - cbn [all_below] in H. apply andb_true_iff in H. destruct H as [H0 H1].
    rewrite Nat2Z.inj_succ, Z.pow_succ_r in Hz by lia.
    destruct (Z.lt_ge_cases z ((2 * base + 1) * 2 ^ Z.of_nat n)) as [Hlt | Hge].
    + apply (IH (2 * base) H0). lia.
    + apply (IH (2 * base + 1) H1). lia.
Qed.

Lemma byte_of_val (c : ascii) : byte_of (byte_val c) = c.
Proof.
  unfold byte_of, byte_val. pose proof (N_ascii_bounded c) as Hc.
  rewrite Z.mod_small by lia. rewrite N2Z.id. apply ascii_N_embedding.
Qed.

(** Bytes made of the number they spell are themselves. *)
Lemma le_bytes_le_int (b : bytes) : le_bytes (List.length b) (le_int b) = b.
Proof.
  induction b as [| c b IH]; [reflexivity |].
  cbn [List.length le_bytes le_int fold_right].
  change (fold_right (fun b0 acc => byte_val b0 + 256 * acc) 0 b) with (le_int b).
  pose proof (byte_val_range c) as Hc.
  f_equal.
  - rewrite <- (byte_of_val c) at 2. unfold byte_of. do 2 f_equal.
    now rewrite (Z.mul_comm 256), Z.mod_add by lia.
  - rewrite Z.shiftr_div_pow2 by lia. change (2 ^ 8) with 256.
    replace ((byte_val c + 256 * le_int b) / 256) with (le_int b); [exact IH |].
    rewrite (Z.mul_comm 256), Z.div_add by lia.
    rewrite (Z.div_small (byte_val c) 256) by lia. lia.
Qed.

(** X7.  Packing is exact on the numbers of the target format: a value
    that is the binary16 number of bit pattern [bits] (zero, subnormal,
    normal or infinite) is packed into the two little-endian bytes of
    [bits], and reading them back gives the value. *)
Theorem half_round_trip (bits : Z) :
  0 <= bits < 65536 ->
  decode_ieee 10 5 bits <> S754_nan ->
  float32_to_float16_bytes (decode_ieee 10 5 bits) = Returns (le_bytes 2 bits) /\
  unpack_e (le_bytes 2 bits) = decode_ieee 10 5 bits.
Proof.
  intros Hbits Hnan.
  assert (Hall : all_below 16 half_round_trip_ok 0 = true)
    by (vm_compute; reflexivity).
  pose proof (all_below_spec half_round_trip_ok 16 0 Hall bits
                ltac:(change (2 ^ Z.of_nat 16) with 65536; lia)) as Hok.
  unfold half_round_trip_ok in Hok. clear Hall. split.
  - remember (decode_ieee 10 5 bits) as x eqn:Hx. clear Hx Hbits.
    assert (Hpack : match float32_to_float16_bytes x with
                    | Returns b => Z.eqb (le_int b) bits
                                   && Nat.eqb (List.length b) 2
                    | _ => false
                    end = true).
    { destruct x; [exact Hok | exact Hok | now elim Hnan | exact Hok]. }
    clear Hok Hnan.
    destruct (float32_to_float16_bytes x) as [b | e | | ];
      [| exact (False_ind _ (Bool.diff_false_true Hpack)) ..].
    apply andb_true_iff in Hpack. destruct Hpack as [Hval Hlen].
    apply Z.eqb_eq in Hval. apply Nat.eqb_eq in Hlen.
    rewrite <- Hval, <- Hlen. f_equal. symmetry. apply le_bytes_le_int.
  - unfold unpack_e. rewrite le_int_le_bytes; [reflexivity |].
    change (256 ^ Z.of_nat 2) with 65536. lia.
Qed.

Lemma half_round_trip_witness :
  float32_to_float16_bytes (decode_ieee 10 5 0x4900) = Returns (le_bytes 2 0x4900) /\
  unpack_e (le_bytes 2 0x4900) = decode_ieee 10 5 0x4900.
Proof.
  apply (half_round_trip 0x4900); [lia | vm_compute; discriminate].
Defined.

(** A byte survives the cast to [float32] and [int()]. *)
Lemma f32_byte_round_trip (n : Z) :
  0 <= n <= 255 -> py_int_of_float (f32_of_int n) = Returns n.
Proof.
  intros Hn.
  assert (Hall : all_below 8 byte_round_trip_ok 0 = true)
    by (vm_compute; reflexivity).
  pose proof (all_below_spec byte_round_trip_ok 8 0 Hall n
                ltac:(change (2 ^ Z.of_nat 8) with 256; lia)) as Hok.
  unfold byte_round_trip_ok in Hok.
  destruct (py_int_of_float (f32_of_int n)) as [m | | | ]; try discriminate.
  apply Z.eqb_eq in Hok. now subst.
Qed.

Lemma filter_is_uchar_range (values : list pyval) (v : pyval) :
  In v (filter is_uchar values) -> exists n, v = VInt n /\ 0 <= n <= 255.
Proof.
  intros H. apply filter_In in H. destruct H as [_ Hv].
  destruct v as [x | n]; [discriminate |].
  apply andb_true_iff in Hv. destruct Hv as [H0 H1].
  exists n. split; [reflexivity | lia].
Qed.

Lemma decode_vertex_bytes (values : list pyval) (t : pytuple6) :
  decode_vertex values = Returns t ->
  exists r g b,
    0 <= r <= 255 /\ 0 <= g <= 255 /\ 0 <= b <= 255 /\
    (t_r t, t_g t, t_b t) = (VInt r, VInt g, VInt b).
Proof.
  intros H. apply decode_vertex_color in H. rewrite H.
  destruct (filter is_uchar values) as [| r [| g [| b more]]] eqn:Hf;
    try (exists 128, 128, 128; repeat split; lia).
  destruct (filter_is_uchar_range values r) as [r' [-> Hr]];
    [rewrite Hf; simpl; auto |].
  destruct (filter_is_uchar_range values g) as [g' [-> Hg]];
    [rewrite Hf; simpl; auto |].
  destruct (filter_is_uchar_range values b) as [b' [-> Hb]];
    [rewrite Hf; simpl; auto |].
  now exists r', g', b'.
Qed.

(** X8.  In every table [parse_ply] returns, the colour of every row is
    made of three integers between 0 and 255, stored as [float32]. *)
Theorem colors_are_bytes (fuel : nat) (fs : filesystem) (p : string)
    (rows : list vertex) :
  parse_ply fuel fs p = Returns (Table rows) ->
  Forall byte_colored rows.
Proof.
  intros Hp.
  destruct (parse_ply_returns _ _ _ _ Hp) as (vc & props & body & vs & Hh & Hvs & Ha).
  apply Forall_forall. intros row Hin.
  apply In_nth_error in Hin. destruct Hin as [i Hi].
  destruct (table_row_decodes _ _ _ _ _ _ _ _ _ Hh Hp Hi) as [t [Ht ->]].
  unfold record_decodes in Ht. inv_bind Ht.
  destruct (decode_vertex_bytes _ _ Ht) as (r & g & b & Hr & Hg & Hb & Hcol).
  injection Hcol as Hr' Hg' Hb'.
  exists r, g, b. repeat split; try lia.
  unfold color, vertex_of_tuple; cbn [v_r v_g v_b].
  now rewrite Hr', Hg', Hb'.
Qed.

Lemma colors_are_bytes_witness : Forall byte_colored sample_rows.
Proof.
  apply (colors_are_bytes 11 sample_fs "scene.ply" sample_rows).
  vm_compute; reflexivity.
Defined.

(** X9.  At ratio 1.0 a table of fewer than 2^52 rows is not sampled:
    [int(len(vertices) * 1.0)] is [len(vertices)], which is not less. *)
Theorem ratio_one_keeps_every_record (random_choice : nat -> nat -> list nat)
    (vertices : ndarray) :
  Z.of_nat (len vertices) < 2 ^ 52 ->
  subsample random_choice vertices ratio_one = Returns vertices.
Proof.
  intros Hn. exact (subsample_ratio_one random_choice vertices Hn).
Qed.

Lemma ratio_one_keeps_every_record_witness :
  subsample first_indices (Table sample_rows) ratio_one
  = Returns (Table sample_rows).
Proof.
  apply (ratio_one_keeps_every_record first_indices (Table sample_rows)).
  vm_compute; reflexivity.
Defined.

(** X10.  When the ratio is so small that [floor(N x r)] is 0 for a table
    of N >= 1 rows (one vertex at the default ratio 0.6, for one), every
    row is dropped, [np.max] of the empty array raises [ValueError] and
    the output is never opened. *)
Theorem empty_sample_raises (random_choice : nat -> nat -> list nat)
    (fs : filesystem) (v : vertex) (rest : list vertex) (path : string)
    (r : spec_float) :
  choice_without_replacement random_choice ->
  SFltb (S754_zero false) r = true ->
  floor_times (S (List.length rest)) r = Some 0 ->
  convert_to_splat random_choice fs (Table (v :: rest)) path r
  = (None, Raises ValueError).
Proof.
  intros Hchoice Hr Hfloor.
  unfold floor_times in Hfloor. unfold convert_to_splat, subsample, len.
  cbn [rows_of List.length].
  destruct (py_float_of_int (Z.of_nat (S (List.length rest)))) as [nf | | | ] eqn:Hnf;
    try discriminate.
  assert (Hnn : not_negative nf).
  { unfold py_float_of_int in Hnf.
    pose proof (f64_of_nat_not_negative (S (List.length rest))) as H.
    destruct (f64_of_int (Z.of_nat (S (List.length rest)))); try discriminate;
      injection Hnf as <-; exact H. }
  destruct (py_int_is_floor _ _ (py_float_mul_not_negative _ _ Hnn Hr) Hfloor)
    as [Hint _].
  cbn [bind]. rewrite Hint. cbn [bind].
  replace (0 <? Z.of_nat (S (List.length rest))) with true
    by (symmetry; apply Z.ltb_lt; lia).
  cbn [Z.ltb Z.compare Z.to_nat].
  destruct (Hchoice (S (List.length rest)) 0%nat ltac:(lia)) as [Hlen _].
  apply length_zero_iff_nil in Hlen. rewrite Hlen. reflexivity.
Qed.

Lemma empty_sample_raises_witness :
  convert_to_splat first_indices sample_fs (Table single_row) "scene.splat"
    ratio_default = (None, Raises ValueError).
Proof.
  apply (empty_sample_raises first_indices sample_fs
           (Vertex (f32_of_int 10) (S754_zero false) (S754_zero false)
                   (f32_of_int 4) (f32_of_int 5) (f32_of_int 6)) []
           "scene.splat" ratio_default).
  - exact first_indices_without_replacement.
  - vm_compute; reflexivity.
  - vm_compute; reflexivity.
Defined.

Lemma byte_fields_range (props : list kind) :
  forall data, Forall (fun n => 0 <= n <= 255) (byte_fields props data).
Proof.
  induction props as [| k ps IH]; intros data; [constructor |].
  destruct k; cbn [byte_fields width]; try apply IH.
  constructor; [| apply IH].
  destruct data as [| c d]; cbn [firstn le_int fold_right]; [lia |].
  pose proof (byte_val_range c). lia.
Qed.

Lemma record_color_values (props : list kind) (body : bytes) (i : nat)
    (t : pytuple6) :
  record_decodes props body i t ->
  exists r g b,
    record_color props (record_at props body i) = [r; g; b] /\
    0 <= r <= 255 /\ 0 <= g <= 255 /\ 0 <= b <= 255 /\
    (t_r t, t_g t, t_b t) = (VInt r, VInt g, VInt b).
Proof.
  unfold record_decodes. intros Ht. inv_bind Ht.
  apply unpack_returns in Ha. subst a.
  apply decode_vertex_color in Ht. rewrite filter_is_uchar_fields in Ht.
  pose proof (byte_fields_range props (record_at props body i)) as Hrange.
  unfold record_color.
  destruct (byte_fields props (record_at props body i)) as [| r [| g [| b more]]];
    cbn [map] in Ht;
    try (exists 128, 128, 128; repeat split; try lia; exact Ht).
  inversion Hrange as [| ? ? Hr Hrest]; subst.
  inversion Hrest as [| ? ? Hg Hrest']; subst.
  inversion Hrest' as [| ? ? Hb _]; subst.
  exists r, g, b. repeat split; try lia. exact Ht.
Qed.

(** The record of row [i] in the file of a call that returned. *)
Lemma convert_to_splat_record (random_choice : nat -> nat -> list nat)
    (fs : filesystem) (vertices : ndarray) (path : string) (r : spec_float)
    (out : bytes) (res : pyobj) :
  convert_to_splat random_choice fs vertices path r = (Some out, Returns res) ->
  exists rows,
    subsample random_choice vertices r = Returns (Table rows) /\
    List.length out = (4 + 10 * List.length rows)%nat /\
    forall i v, nth_error rows i = Some v ->
      exists p, point_bytes p v (firstn 10 (skipn (4 + 10 * i) out)).
Proof.
  intros H.
  destruct (convert_to_splat_written _ _ _ _ _ _ _ H)
    as (rows & positions & recs & Hsub & Hnorm & Hlen & Hlt & -> & Hall).
  exists rows. split; [exact Hsub |].
  destruct (concat_slice 10 recs (records_are_ten_bytes _ _ Hall))
    as [Hsize Hslice].
  pose proof (Forall2_length Hall) as Hcount.
  rewrite length_combine, Hlen, Nat.min_id in Hcount.
  destruct (header_then_records (le_bytes 4 (Z.of_nat (List.length rows)))
              (List.concat recs) (le_bytes_length 4 _)) as [_ Hskip].
  unfold bytes in *.
  split; [rewrite length_app, le_bytes_length, Hsize; lia |].
  intros i v Hv.
  assert (Hi : (i < List.length positions)%nat).
  { rewrite Hlen. apply nth_error_Some. congruence. }
  destruct (nth_error positions i) as [p |] eqn:Hp;
    [| apply nth_error_None in Hp; lia].
  exists p.
  pose proof (nth_error_combine _ _ _ _ _ Hp Hv) as Hpv.
  destruct (Forall2_nth_error_l _ _ _ Hall _ _ Hpv) as [rb [Hrb Hbytes]].
  now rewrite Hskip, (Hslice _ _ Hrb).
Qed.

Lemma point_bytes_color (p : position) (v : vertex) (rb : bytes) (r g b : Z) :
  point_bytes p v rb ->
  py_int_of_float (v_r v) = Returns r ->
  py_int_of_float (v_g v) = Returns g ->
  py_int_of_float (v_b v) = Returns b ->
  skipn 6 rb = [byte_of r; byte_of g; byte_of b; byte_of 255].
Proof.
  intros (bx & by_ & bz & r' & g' & b' & Hx & Hy & Hz & Hr & Hg & Hb & _ & _ & _ & ->)
         Hr' Hg' Hb'.
  rewrite Hr in Hr'. rewrite Hg in Hg'. rewrite Hb in Hb'.
  injection Hr' as <-. injection Hg' as <-. injection Hb' as <-.
  apply pack_e_length in Hx, Hy, Hz.
  destruct bx as [| x0 [| x1 [| ? ?]]]; try discriminate.
  destruct by_ as [| y0 [| y1 [| ? ?]]]; try discriminate.
  destruct bz as [| z0 [| z1 [| ? ?]]]; try discriminate.
  reflexivity.
Qed.

(** X11.  Colours pass through the conversion unchanged.  When a file of
    fewer than 2^52 declared vertices is parsed and converted at ratio
    1.0 and the call returns, bytes 6 to 9 of record [i] of the output
    are the first three byte fields of record [i] of the input (128,
    128, 128 when the schema has fewer than three), then 255. *)
Theorem colors_pass_through (random_choice : nat -> nat -> list nat)
    (fuel : nat) (fs : filesystem) (ply_path splat_path : string)
    (vc : Z) (props : list kind) (body out : bytes) (res : pyobj) (i : nat) :
  parse_header fuel fs ply_path = Returns (vc, props, body) ->
  vc < 2 ^ 52 ->
  parse_then_convert random_choice fuel fs ply_path splat_path ratio_one
    = (Some out, Returns res) ->
  (4 + 10 * i + 10 <= List.length out)%nat ->
  firstn 4 (skipn (4 + 10 * i + 6) out)
  = map byte_of (record_color props (record_at props body i) ++ [255]).
Proof.
  intros Hh Hvc Hrun Hi.
  unfold parse_then_convert in Hrun.
  destruct (parse_ply fuel fs ply_path) as [a | | | ] eqn:Hp; try discriminate.
  destruct (parse_ply_returns _ _ _ _ Hp) as (vc' & props' & body' & vs & Hh' & Hvs & Ha).
  rewrite Hh in Hh'. injection Hh' as <- <- <-.
  destruct (read_vertices_decodes _ _ _ _ Hvs) as [Hcount Hdec].
  destruct (convert_to_splat_record _ _ _ _ _ _ _ Hrun) as (rows & Hsub & Hsize & Hrec).
  rewrite subsample_ratio_one in Hsub
    by (subst a; rewrite np_array_len; lia).
  injection Hsub as ->.
  symmetry in Ha. apply np_array_table in Ha. subst rows.
  rewrite length_map in Hsize.
  destruct (nth_error vs i) as [t |] eqn:Ht;
    [| apply nth_error_None in Ht; lia].
  assert (Hv : nth_error (map vertex_of_tuple vs) i = Some (vertex_of_tuple t))
    by (rewrite nth_error_map, Ht; reflexivity).
  destruct (Hrec _ _ Hv) as [p Hbytes].
  destruct (record_color_values _ _ _ _ (Hdec _ _ Ht))
    as (r & g & b & -> & Hr & Hg & Hb & Hcol).
  injection Hcol as Hr' Hg' Hb'.
  pose proof (point_bytes_color p (vertex_of_tuple t) _ r g b Hbytes) as Hslice.
  unfold vertex_of_tuple in Hslice; cbn [v_r v_g v_b] in Hslice.
  rewrite Hr', Hg', Hb' in Hslice. cbn [np_float32] in Hslice.
  specialize (Hslice (f32_byte_round_trip r Hr) (f32_byte_round_trip g Hg)
                (f32_byte_round_trip b Hb)).
  replace (4 + 10 * i + 6)%nat with (6 + (4 + 10 * i))%nat by lia.
  rewrite <- skipn_skipn, firstn_skipn_comm.
  exact Hslice.
Qed.

Lemma colors_pass_through_witness :
  firstn 4 (skipn (4 + 10 * 1 + 6) sample_splat)
  = map byte_of (record_color [Kf; Kf; Kf; KB; KB; KB]
                   (record_at [Kf; Kf; Kf; KB; KB; KB] body_four 1) ++ [255]).
Proof.
  apply (colors_pass_through first_indices 11 sample_fs "scene.ply" "scene.splat"
           4 [Kf; Kf; Kf; KB; KB; KB] body_four sample_splat PyNone 1).
  - vm_compute; reflexivity.
  - lia.
  - vm_compute; reflexivity.
  - vm_compute; lia.
Defined.






(** * Properties of main *)






(** X14.  One PLY file without [end_header] stops the batch: the round of
    its scene never ends, so that neither its preview nor any scene after
    it is handled. *)
Theorem ply_without_end_header_hangs_the_batch {world : Type}
    (os : platform world)
    (draws : nat -> nat -> nat -> list nat) (i fuel : nat)
    (source_dir output_dir : string) (w : world) (sc : scene)
    (rest : list scene) (f : bytes) :
  w_exists os w (ply_path_of source_dir sc) = true ->
  fs_read (w_files os w) (ply_path_of source_dir sc) = Some f ->
  contains END_HEADER f = false ->
  run_scenes os draws i fuel source_dir output_dir w (sc :: rest) = OutOfFuel.
Proof.
  intros Hex Hf Hno. cbn [run_scenes]. unfold process_scene, convert_scene.
  rewrite Hex, (parse_ply_never_ends fuel (w_files os w) _ f Hf Hno).
  reflexivity.
Qed.

Lemma ply_without_end_header_hangs_the_batch_witness :
  main (flat_os true) first_draws 1000 stuck_world = OutOfFuel.
Proof.
  apply (ply_without_end_header_hangs_the_batch (flat_os true) first_draws 0
           1000 SOURCE_DIR OUTPUT_DIR stuck_world
           ("HKUST_redbird", "HKUST_redbird.ply", "HKUST_redbird.png", "scene1")%string
           (tl FILES) (lit "ply
element vertex 1
")); vm_compute; reflexivity.
Defined.

(** * Sampling, counting and failing, end to end *)




Lemma read_vertices_within_body (n : nat) (props : list kind) :
  forall (f : bytes) (vs : list pytuple6),
    read_vertices n props f = Returns vs ->
    (List.length vs * calcsize props <= List.length f)%nat.
Proof.
  induction n as [| n IH]; intros f vs H; cbn [read_vertices] in H.
  - injection H as <-. simpl. lia.
  - destruct (Nat.ltb _ _) eqn:Hshort.
    + injection H as <-. simpl. lia.
    + inv_bind H. inv_bind H. inv_bind H. injection H as <-.
      apply Nat.ltb_ge in Hshort. rewrite length_firstn in Hshort.
      specialize (IH _ _ Ha1). rewrite length_skipn in IH.
      cbn [List.length]. lia.
Qed.

(** X17.  The table never has more rows than the header declares, nor
    more than the body has room for: [rows x stride] never exceeds the
    number of bytes after the header. *)
Theorem rows_within_count_and_body (fuel : nat) (fs : filesystem) (p : string)
    (vc : Z) (props : list kind) (body : bytes) (a : ndarray) :
  parse_header fuel fs p = Returns (vc, props, body) ->
  parse_ply fuel fs p = Returns a ->
  Z.of_nat (len a) <= Z.max 0 vc /\
  (len a * calcsize props <= List.length body)%nat.
Proof.
  intros Hh Hp.
  destruct (parse_ply_returns _ _ _ _ Hp) as (vc' & props' & body' & vs & Hh' & Hvs & ->).
  rewrite Hh in Hh'. injection Hh' as <- <- <-.
  rewrite np_array_len.
  destruct (read_vertices_decodes _ _ _ _ Hvs) as [Hcount _].
  split; [lia | exact (read_vertices_within_body _ _ _ _ Hvs)].
Qed.

Lemma rows_within_count_and_body_witness :
  Z.of_nat (len (Table (firstn 2 sample_rows))) <= Z.max 0 4 /\
  (len (Table (firstn 2 sample_rows)) * calcsize [Kf; Kf; Kf; KB; KB; KB]
   <= List.length (firstn 37 body_four))%nat.
Proof.
  apply (rows_within_count_and_body 11 sample_fs "short.ply" 4
           [Kf; Kf; Kf; KB; KB; KB] (firstn 37 body_four)
           (Table (firstn 2 sample_rows)));
    vm_compute; reflexivity.
Defined.








(** The file cut short: [far_y.ply] holds (NaN, 0, 0) and (0, 200000, 0).
    The extent is a NaN, nothing is scaled, and the y of the first point,
    -100000, does not fit binary16: the output is left with the count 2
    and the two bytes of one x. *)
Example far_y_is_cut_short :
  parse_ply 11 more_fs "far_y.ply" = Returns (Table far_y_rows) /\
  parse_then_convert first_indices 11 more_fs "far_y.ply" "far_y.splat" ratio_one
    = (Some cut_splat, Raises OverflowError).
Proof. split; vm_compute; reflexivity. Qed.

(** One scene present: its PLY is converted at the default ratio (two of
    four points), its preview copied, the other four scenes not found. *)
Example main_on_one_scene :
  match main (flat_os true) first_draws 11 one_scene_world with
  | Returns (w', ev) =>
      ev = [PlyConverted; PreviewCopied; PlyNotFound; PlyNotFound;
            PlyNotFound; PlyNotFound] /\
      option_map (fun out => le_int (firstn 4 out))
        (fs_read (fw_files w') (OUTPUT_DIR ++ "/scene1.splat")%string) = Some 2 /\
      fs_read (fw_files w') (OUTPUT_DIR ++ "/samples/scene1.png")%string
        = Some (bs [137; 80; 78; 71])
  | _ => False
  end.
Proof. vm_compute. repeat split; reflexivity. Qed.

(** The error of a scene is caught and the loop goes on: in
    [broken_world] the first PLY raises [IndexError], which is reported,
    and it is the copy of the second preview that stops [main]. *)
Example main_goes_on_after_an_error :
  run_scenes (flat_os true) first_draws 0 11 SOURCE_DIR OUTPUT_DIR broken_world
    (firstn 1 FILES) = Returns (broken_world, [PlyError IndexError]) /\
  main (flat_os true) first_draws 11 broken_world = Raises OSError.
Proof. split; vm_compute; reflexivity. Qed.
